(** * mavros_gym: episode evaluation and reward shaping

    A shallow embedding of [task_envs/uav_follow_trajectory_task_env.py]
    (class [UAVFollowTrajectoryTaskEnv]) and [mavros_gym/robot_sim_env.py]
    (class [RobotSimEnv]).

    Python floats are idealised: a finite float is a real number with exact
    arithmetic, and the three special values the code can create
    ([float('inf')], [-float('inf')], [float('NaN')]) are kept as tokens
    with the propagation rules of IEEE 754.  Python's [bool] is a subclass
    of [int] with [True == 1] and [False == 0]; a flag that the code uses
    both as a truth value and as a number is a number here. *)

From Stdlib Require Import Reals Lra ZArith Lia String Bool List.
Import ListNotations.

Set Implicit Arguments.

Local Open Scope R_scope.

(** ** Python numbers *)

Inductive pyfloat : Type :=
| Fin (r : R)
| PInf
| NInf
| NaN.

Definition Rltb (a b : R) : bool := if Rlt_dec a b then true else false.
Definition Rleb (a b : R) : bool := if Rle_dec a b then true else false.
Definition Reqb (a b : R) : bool := if Req_dec_T a b then true else false.

Definition pf_is_zero (x : pyfloat) : bool :=
  match x with Fin r => Reqb r 0 | _ => false end.

Definition pf_is_neg (x : pyfloat) : bool :=
  match x with Fin r => Rltb r 0 | NInf => true | _ => false end.

Definition pf_inf (negative : bool) : pyfloat :=
  if negative then NInf else PInf.

Definition pf_opp (x : pyfloat) : pyfloat :=
  match x with
  | Fin r => Fin (- r)
  | PInf => NInf
  | NInf => PInf
  | NaN => NaN
  end.

Definition pf_add (x y : pyfloat) : pyfloat :=
  match x, y with
  | Fin a, Fin b => Fin (a + b)
  | NaN, _ | _, NaN => NaN
  | PInf, NInf | NInf, PInf => NaN
  | PInf, _ | _, PInf => PInf
  | NInf, _ | _, NInf => NInf
  end.

Definition pf_sub (x y : pyfloat) : pyfloat := pf_add x (pf_opp y).

Definition pf_mul (x y : pyfloat) : pyfloat :=
  match x, y with
  | Fin a, Fin b => Fin (a * b)
  | NaN, _ | _, NaN => NaN
  | _, _ =>
      if pf_is_zero x || pf_is_zero y then NaN
      else pf_inf (xorb (pf_is_neg x) (pf_is_neg y))
  end.

(** Division as numpy's float64 does it: no exception, a zero divisor gives
    an infinity or NaN (zeros carry no sign in this model). *)
Definition pf_div (x y : pyfloat) : pyfloat :=
  match x, y with
  | NaN, _ | _, NaN => NaN
  | Fin a, Fin b =>
      if Reqb b 0 then (if Reqb a 0 then NaN else pf_inf (Rltb a 0))
      else Fin (a / b)
  | Fin _, _ => Fin 0
  | _, Fin _ => pf_inf (xorb (pf_is_neg x) (pf_is_neg y))
  | _, _ => NaN
  end.

Definition pf_ltb (x y : pyfloat) : bool :=
  match x, y with
  | Fin a, Fin b => Rltb a b
  | NaN, _ | _, NaN => false
  | NInf, NInf | PInf, _ | _, NInf => false
  | _, _ => true
  end.

Definition pf_leb (x y : pyfloat) : bool :=
  match x, y with
  | Fin a, Fin b => Rleb a b
  | NaN, _ | _, NaN => false
  | NInf, _ | _, PInf => true
  | _, _ => false
  end.

(** [x > y] is [y < x]. *)
Definition pf_gtb (x y : pyfloat) : bool := pf_ltb y x.

(** Truth value of a number: [bool(x)] is [x != 0], so NaN is true. *)
Definition truthy (x : pyfloat) : bool := negb (pf_is_zero x).

Definition of_bool (b : bool) : pyfloat := Fin (if b then 1 else 0).

(** [a or b] gives [a] when [a] is true and [b] otherwise. *)
Definition py_or (a b : pyfloat) : pyfloat := if truthy a then a else b.

(** ** Exceptions and results *)

Inductive exn : Type :=
| ValueError
| TypeError
| IndexError
| UnboundLocalError
| NotImplementedError.

Inductive result (A : Type) : Type :=
| Returned (a : A)
| Raised (e : exn).

Arguments Returned {A} a.
Arguments Raised {A} e.

Definition rbind {A B} (c : result A) (k : A -> result B) : result B :=
  match c with
  | Returned a => k a
  | Raised e => Raised e
  end.

Declare Scope result_scope.
Delimit Scope result_scope with result.
Notation "x <- c ;; k" := (rbind c (fun x => k))
  (at level 61, c at next level, right associativity) : result_scope.

Fixpoint rmap {A B} (f : A -> result B) (l : list A) : result (list B) :=
  match l with
  | [] => Returned []
  | a :: l' =>
      rbind (f a) (fun b => rbind (rmap f l') (fun bs => Returned (b :: bs)))
  end.

(** [math.sqrt], [math.log] and [math.acos] raise [ValueError] outside their
    domain and pass NaN through. *)
Definition math_sqrt (x : pyfloat) : result pyfloat :=
  match x with
  | Fin r => if Rltb r 0 then Raised ValueError else Returned (Fin (sqrt r))
  | PInf => Returned PInf
  | NInf => Raised ValueError
  | NaN => Returned NaN
  end.

Definition math_log (x : pyfloat) : result pyfloat :=
  match x with
  | Fin r => if Rleb r 0 then Raised ValueError else Returned (Fin (ln r))
  | PInf => Returned PInf
  | NInf => Raised ValueError
  | NaN => Returned NaN
  end.

Definition math_acos (x : pyfloat) : result pyfloat :=
  match x with
  | Fin r =>
      if Rltb r (-1) || Rltb 1 r then Raised ValueError
      else Returned (Fin (acos r))
  | NaN => Returned NaN
  | _ => Raised ValueError
  end.

(** [np.sqrt] never raises: a negative argument gives NaN. *)
Definition np_sqrt (x : pyfloat) : pyfloat :=
  match x with
  | Fin r => if Rltb r 0 then NaN else Fin (sqrt r)
  | PInf => PInf
  | _ => NaN
  end.

(** ** numpy: one-dimensional float arrays

    A float64 array of shape [(n,)] is a list of [n] numbers.  Slicing never
    raises (it clamps); indexing raises [IndexError] out of range; an
    element-wise operation on shapes [(m,)] and [(n,)] broadcasts when
    [m = n] or one of them is 1 and raises [ValueError] otherwise. *)

Fixpoint zip_with {A B C} (f : A -> B -> result C) (a : list A) (b : list B)
  : result (list C) :=
  match a, b with
  | x :: a', y :: b' =>
      rbind (f x y) (fun c =>
      rbind (zip_with f a' b') (fun cs => Returned (c :: cs)))
  | _, _ => Returned []
  end.

Definition broadcast2 {A B C} (f : A -> B -> result C)
  (a : list A) (b : list B) : result (list C) :=
  if Nat.eqb (length a) (length b) then zip_with f a b
  else match a, b with
       | [x], _ => rmap (f x) b
       | _, [y] => rmap (fun x => f x y) a
       | _, _ => Raised ValueError
       end.

Definition np_binop {A} (f : pyfloat -> pyfloat -> A) (a b : list pyfloat)
  : result (list A) :=
  broadcast2 (fun x y => Returned (f x y)) a b.

Definition np_sub := np_binop pf_sub.
Definition np_add := np_binop pf_add.
Definition np_le := np_binop pf_leb.
Definition np_gt := np_binop pf_gtb.

(** [a + s], [s * a] for a scalar [s]. *)
Definition np_add_scalar (a : list pyfloat) (s : pyfloat) : list pyfloat :=
  map (fun x => pf_add x s) a.
Definition np_sub_scalar (a : list pyfloat) (s : pyfloat) : list pyfloat :=
  map (fun x => pf_sub x s) a.
Definition np_scale (s : pyfloat) (a : list pyfloat) : list pyfloat :=
  map (pf_mul s) a.

Definition np_all (l : list bool) : bool := forallb (fun b => b) l.

(** [a[i]] and [a[i:j]]. *)
Definition getitem {A} (a : list A) (i : nat) : result A :=
  match nth_error a i with
  | Some x => Returned x
  | None => Raised IndexError
  end.

Definition slice {A} (i j : nat) (a : list A) : list A :=
  skipn i (firstn j a).

Fixpoint vdot (a b : list pyfloat) : pyfloat :=
  match a, b with
  | x :: a', y :: b' => pf_add (pf_mul x y) (vdot a' b')
  | _, _ => Fin 0
  end.

Definition np_dot (a b : list pyfloat) : result pyfloat :=
  if Nat.eqb (length a) (length b) then Returned (vdot a b)
  else Raised ValueError.

(** [np.linalg.norm] of a 1-d array is [sqrt(x.dot(x))]. *)
Definition np_linalg_norm (a : list pyfloat) : pyfloat := np_sqrt (vdot a a).

(** ** numpy: values of the geodesic branch

    The geodesic branch of [get_difference_between_orientations] builds
    arrays whose entries are themselves arrays.  [npv] is the universe of
    such values: a scalar, or an array of values.  A float array is an
    array of scalars; an array holding a scalar next to an array is a
    ragged (dtype object) array.  An operator applies entry by entry, with
    the broadcasting rule above at every level.  Arrays of more than one
    regular dimension do not occur in the program. *)

#[local] Unset Elimination Schemes.
Inductive npv : Type :=
| Sc (x : pyfloat)
| Ar (l : list npv).
#[local] Set Elimination Schemes.

Definition of_floats (l : list pyfloat) : npv := Ar (map Sc l).

Fixpoint npv_map (f : pyfloat -> pyfloat) (v : npv) : npv :=
  match v with
  | Sc x => Sc (f x)
  | Ar l => Ar (map (npv_map f) l)
  end.

Fixpoint npv_binop (f : pyfloat -> pyfloat -> pyfloat) (a b : npv) {struct a}
  : result npv :=
  match a with
  | Sc x => Returned (npv_map (f x) b)
  | Ar l =>
      match b with
      | Sc y => Returned (npv_map (fun x => f x y) a)
      | Ar m =>
          rbind (broadcast2 (npv_binop f) l m) (fun cs => Returned (Ar cs))
      end
  end.

Definition npv_sum (l : list npv) : result npv :=
  fold_right (fun x acc => rbind acc (fun s => npv_binop pf_add x s))
             (Returned (Sc (Fin 0))) l.

Definition npv_dot (a b : npv) : result npv :=
  match a, b with
  | Ar l, Ar m =>
      if Nat.eqb (length l) (length m)
      then rbind (zip_with (npv_binop pf_mul) l m) npv_sum
      else Raised ValueError
  | _, _ => npv_binop pf_mul a b
  end.

Definition npv_linalg_norm (a : npv) : result npv :=
  rbind (npv_dot a a) (fun d => Returned (npv_map np_sqrt d)).

Definition npv_index (a : npv) (i : nat) : result npv :=
  match a with
  | Ar l => getitem l i
  | Sc _ => Raised IndexError
  end.

Definition npv_slice (i j : nat) (a : npv) : result npv :=
  match a with
  | Ar l => Returned (Ar (slice i j l))
  | Sc _ => Raised IndexError
  end.

(** Conversion to a Python float, as [math.sqrt(x)] does with its argument:
    a scalar, or an array of exactly one scalar. *)
Definition to_float (v : npv) : result pyfloat :=
  match v with
  | Sc x => Returned x
  | Ar [Sc x] => Returned x
  | Ar _ => Raised TypeError
  end.

(** Truth value of [v] in an [if]: an array of more than one element has
    none ([ValueError]). *)
Fixpoint npv_truth (v : npv) : result bool :=
  match v with
  | Sc x => Returned (truthy x)
  | Ar [] => Returned false
  | Ar [w] => npv_truth w
  | Ar _ => Raised ValueError
  end.

Definition npv_is_scalar (v : npv) : bool :=
  match v with Sc _ => true | Ar _ => false end.

Definition npv_row_length (v : npv) : option nat :=
  match v with
  | Ar l => if forallb npv_is_scalar l then Some (length l) else None
  | Sc _ => None
  end.

Definition npv_regular (items : list npv) : bool :=
  forallb npv_is_scalar items
  || match map npv_row_length items with
     | Some n :: rest =>
         forallb (fun o => match o with
                           | Some k => Nat.eqb k n
                           | None => false
                           end) rest
     | _ => false
     end.

(** [np.array(items)] on a list or tuple.  Entries of one shape make a
    regular array.  Entries of different shapes are ragged: numpy before
    1.24 builds a dtype-object array from them, numpy from 1.24 on raises
    [ValueError]; [legacy] says which numpy runs. *)
Definition np_array (legacy : bool) (items : list npv) : result npv :=
  if npv_regular items || legacy then Returned (Ar items)
  else Raised ValueError.

(** [np.array(obj, d)] takes its second positional argument as the dtype;
    a number or an array is not a dtype. *)
Definition np_array_dtype (obj dtype : npv) : result npv := Raised TypeError.

(** ** Methods: state and exceptions

    A method of the environment object reads and assigns attributes of
    [self] and may raise: it is a function from the attributes before the
    call to either an exception or a value with the attributes after. *)

Definition M (S A : Type) : Type := S -> result (A * S).

Definition ret {S A} (a : A) : M S A := fun s => Returned (a, s).

Definition bind {S A B} (c : M S A) (k : A -> M S B) : M S B :=
  fun s => match c s with
           | Returned (a, s') => k a s'
           | Raised e => Raised e
           end.

Definition raise {S A} (e : exn) : M S A := fun _ => Raised e.

Definition liftR {S A} (r : result A) : M S A :=
  fun s => match r with
           | Returned a => Returned (a, s)
           | Raised e => Raised e
           end.

Definition gets {S A} (f : S -> A) : M S A := fun s => Returned (f s, s).

Definition modify {S} (f : S -> S) : M S unit := fun s => Returned (tt, f s).

Definition when {S} (b : bool) (c : M S unit) : M S unit :=
  if b then c else ret tt.

Declare Scope method_scope.
Delimit Scope method_scope with M.
Notation "x <- c ;; k" := (bind c (fun x => k))
  (at level 61, c at next level, right associativity) : method_scope.
Notation "c ;; k" := (bind c (fun _ => k))
  (at level 61, right associativity) : method_scope.

(** ** Messages of geometry_msgs *)

Module Point.
Record t : Type := { x : pyfloat; y : pyfloat; z : pyfloat }.
End Point.

Module Quaternion.
Record t : Type :=
  { x : pyfloat; y : pyfloat; z : pyfloat; w : pyfloat }.
End Quaternion.

Module Pose.
Record t : Type := { position : Point.t; orientation : Quaternion.t }.
End Pose.

Module PoseStamped.
Record t : Type := { pose : Pose.t }.
End PoseStamped.

Module Vector3.
Record t : Type := { x : pyfloat; y : pyfloat; z : pyfloat }.
End Vector3.

Module Twist.
Record t : Type := { linear : Vector3.t; angular : Vector3.t }.
End Twist.

Module TwistStamped.
Record t : Type := { twist : Twist.t }.
End TwistStamped.

(** ** What the task environment is given

    [UAVFollowTrajectoryTaskEnv] inherits from [UAVBaseTaskEnv] and from a
    robot environment ([MavrosUAVRobotEnv] or [AirSimUAVRobotEnv]) and holds
    a simulation handler.  These are not embedded here; they are
    parameters: [W] is the state of the simulated world and of the robot
    environment, and a [Backend] gives the sensors read from it, the
    commands sent to it, the ROS parameter server,
    [tf.transformations.euler_from_quaternion], and which numpy runs.  A
    call to a collaborator is taken to return. *)

Class Backend (W Cam : Type) : Type := {
  sim_unpause : W -> W;
  sim_pause : W -> W;
  sim_reset : W -> W;
  pose : W -> PoseStamped.t;
  velocity : W -> TwistStamped.t;
  front_camera : W -> Cam;
  collision_check : W -> pyfloat;
  _set_arming_request : bool -> W -> bool * W;
  _set_takeoff_request : pyfloat -> W -> bool * W;
  _stop_pose_estimator : W -> W;
  _reset_pose_estimator : W -> W;
  _check_all_systems_ready : W -> W;
  pub_cmd_vel : TwistStamped.t -> W -> W;
  rospy_sleep : pyfloat -> W -> W;
  rospy_get_param : string -> W -> pyfloat;
  euler_from_quaternion : list pyfloat -> pyfloat * pyfloat * pyfloat;
  numpy_legacy : bool
}.

(** Attributes that the methods read and never assign; the constructor of
    [UAVBaseTaskEnv] sets them. *)
Record Config : Type := {
  work_space_x_max : pyfloat;
  work_space_x_min : pyfloat;
  work_space_y_max : pyfloat;
  work_space_y_min : pyfloat;
  work_space_z_max : pyfloat;
  work_space_z_min : pyfloat;
  min_height : pyfloat;
  desired_pose : PoseStamped.t;
  desired_pose_epsilon : pyfloat;
  geo_distance : bool;
  closer_to_point_reward : pyfloat;
  collision_penalty : pyfloat;
  end_episode_points : pyfloat;
  use_pose_estimator : bool
}.

Inductive LogLevel : Type := LogDebug | LogInfo | LogWarn | LogErr.

(** A log line: its level, its text, and the values appended to the text
    with [str]. *)
Record LogEntry : Type :=
  { log_level : LogLevel; log_text : string; log_values : list pyfloat }.

(** Attributes that the methods below assign, and the lines logged through
    [rospy].  The constructor of [UAVBaseTaskEnv] is taken to have set
    [cumulated_steps] and the other attributes before the first call. *)
Record State (W : Type) : Type := {
  world : W;
  cumulated_reward : pyfloat;
  cumulated_steps : Z;
  previous_distance_from_des_point : pyfloat;
  previous_difference_from_des_orientation : pyfloat;
  max_roll : pyfloat;
  max_pitch : pyfloat;
  rospy_log : list LogEntry
}.

(** ** class UAVFollowTrajectoryTaskEnv *)

Section UAVFollowTrajectoryTaskEnv.

Context {W Cam : Type} {backend : Backend W Cam}.
Variable cfg : Config.

Local Abbreviation St := (State W).
Local Open Scope method_scope.

(** An observation is the list [[numeric_obs, curr_front_camera]]. *)
Definition Observation : Type := list pyfloat * Cam.

(** *** Attribute access and collaborators *)

Definition set_world (w : W) (s : St) : St :=
  {| world := w;
     cumulated_reward := cumulated_reward s;
     cumulated_steps := cumulated_steps s;
     previous_distance_from_des_point := previous_distance_from_des_point s;
     previous_difference_from_des_orientation :=
       previous_difference_from_des_orientation s;
     max_roll := max_roll s;
     max_pitch := max_pitch s;
     rospy_log := rospy_log s |}.

Definition set_cumulated_reward (v : pyfloat) (s : St) : St :=
  {| world := world s;
     cumulated_reward := v;
     cumulated_steps := cumulated_steps s;
     previous_distance_from_des_point := previous_distance_from_des_point s;
     previous_difference_from_des_orientation :=
       previous_difference_from_des_orientation s;
     max_roll := max_roll s;
     max_pitch := max_pitch s;
     rospy_log := rospy_log s |}.

Definition set_cumulated_steps (v : Z) (s : St) : St :=
  {| world := world s;
     cumulated_reward := cumulated_reward s;
     cumulated_steps := v;
     previous_distance_from_des_point := previous_distance_from_des_point s;
     previous_difference_from_des_orientation :=
       previous_difference_from_des_orientation s;
     max_roll := max_roll s;
     max_pitch := max_pitch s;
     rospy_log := rospy_log s |}.

Definition set_previous_distance_from_des_point (v : pyfloat) (s : St) : St :=
  {| world := world s;
     cumulated_reward := cumulated_reward s;
     cumulated_steps := cumulated_steps s;
     previous_distance_from_des_point := v;
     previous_difference_from_des_orientation :=
       previous_difference_from_des_orientation s;
     max_roll := max_roll s;
     max_pitch := max_pitch s;
     rospy_log := rospy_log s |}.

Definition set_previous_difference_from_des_orientation
  (v : pyfloat) (s : St) : St :=
  {| world := world s;
     cumulated_reward := cumulated_reward s;
     cumulated_steps := cumulated_steps s;
     previous_distance_from_des_point := previous_distance_from_des_point s;
     previous_difference_from_des_orientation := v;
     max_roll := max_roll s;
     max_pitch := max_pitch s;
     rospy_log := rospy_log s |}.

Definition set_max_roll (v : pyfloat) (s : St) : St :=
  {| world := world s;
     cumulated_reward := cumulated_reward s;
     cumulated_steps := cumulated_steps s;
     previous_distance_from_des_point := previous_distance_from_des_point s;
     previous_difference_from_des_orientation :=
       previous_difference_from_des_orientation s;
     max_roll := v;
     max_pitch := max_pitch s;
     rospy_log := rospy_log s |}.

Definition set_max_pitch (v : pyfloat) (s : St) : St :=
  {| world := world s;
     cumulated_reward := cumulated_reward s;
     cumulated_steps := cumulated_steps s;
     previous_distance_from_des_point := previous_distance_from_des_point s;
     previous_difference_from_des_orientation :=
       previous_difference_from_des_orientation s;
     max_roll := max_roll s;
     max_pitch := v;
     rospy_log := rospy_log s |}.

Definition set_rospy_log (v : list LogEntry) (s : St) : St :=
  {| world := world s;
     cumulated_reward := cumulated_reward s;
     cumulated_steps := cumulated_steps s;
     previous_distance_from_des_point := previous_distance_from_des_point s;
     previous_difference_from_des_orientation :=
       previous_difference_from_des_orientation s;
     max_roll := max_roll s;
     max_pitch := max_pitch s;
     rospy_log := v |}.

(** A command to the world that returns nothing, one that returns a
    value, and a sensor read. *)
Definition command (f : W -> W) : M St unit :=
  modify (fun s => set_world (f (world s)) s).

Definition request {A} (f : W -> A * W) : M St A :=
  fun s => let (a, w) := f (world s) in Returned (a, set_world w s).

Definition sensor {A} (f : W -> A) : M St A := gets (fun s => f (world s)).

Definition rospy_logmsg (lvl : LogLevel) (text : string)
  (values : list pyfloat) : M St unit :=
  modify (fun s =>
    set_rospy_log
      (rospy_log s ++
         [{| log_level := lvl; log_text := text; log_values := values |}]) s).

Definition logdebug := rospy_logmsg LogDebug.
Definition loginfo := rospy_logmsg LogInfo.
Definition logwarn := rospy_logmsg LogWarn.
Definition logerr := rospy_logmsg LogErr.

(** *** Internal TaskEnv methods *)

Definition desired_position : Point.t :=
  Pose.position (PoseStamped.pose (desired_pose cfg)).

Definition desired_orientation : Quaternion.t :=
  Pose.orientation (PoseStamped.pose (desired_pose cfg)).

Definition is_in_desired_pose (current_pose : list pyfloat)
  (epsilon : pyfloat) : result bool :=
  let curr_pose := current_pose in
  let desired_pose :=
    [ Point.x desired_position; Point.y desired_position;
      Point.z desired_position;
      Quaternion.w desired_orientation; Quaternion.x desired_orientation;
      Quaternion.y desired_orientation; Quaternion.z desired_orientation ] in
  let desired_pose_plus := np_add_scalar desired_pose epsilon in
  let desired_pose_minus := np_sub_scalar desired_pose epsilon in
  (below <- np_le curr_pose desired_pose_plus ;;
   if np_all below
   then (above <- np_gt curr_pose desired_pose_minus ;;
         Returned (np_all above))
   else Returned false)%result.

Definition is_inside_workspace (current_position : list pyfloat)
  : result bool :=
  (p0 <- getitem current_position 0 ;;
   if pf_gtb p0 (work_space_x_min cfg) && pf_leb p0 (work_space_x_max cfg)
   then
     p1 <- getitem current_position 1 ;;
     if pf_gtb p1 (work_space_y_min cfg) && pf_leb p1 (work_space_y_max cfg)
     then
       p2 <- getitem current_position 2 ;;
       if pf_gtb p2 (work_space_z_min cfg)
          && pf_leb p2 (work_space_z_max cfg)
       then Returned true
       else Returned false
     else Returned false
   else Returned false)%result.

Definition too_close_to_ground (current_position_z : pyfloat) : bool :=
  let too_close := pf_ltb current_position_z (min_height cfg) in
  too_close.

Definition drone_has_flipped (current_orientation : list pyfloat)
  : M St bool :=
  o1 <- liftR (getitem current_orientation 1) ;;
  o2 <- liftR (getitem current_orientation 2) ;;
  o3 <- liftR (getitem current_orientation 3) ;;
  o0 <- liftR (getitem current_orientation 0) ;;
  let '(curr_roll, curr_pitch, curr_yaw) :=
    euler_from_quaternion [o1; o2; o3; o0] in
  r <- sensor (rospy_get_param "/mavros_gym/max_roll") ;;
  modify (set_max_roll r) ;;
  p <- sensor (rospy_get_param "/mavros_gym/max_pitch") ;;
  modify (set_max_pitch p) ;;
  max_roll <- gets (@max_roll W) ;;
  max_pitch <- gets (@max_pitch W) ;;
  if pf_gtb curr_roll (pf_mul (Fin (-1)) max_roll)
     && pf_leb curr_roll max_roll
  then
    if pf_gtb curr_pitch (pf_mul (Fin (-1)) max_pitch)
       && pf_leb curr_pitch max_pitch
    then ret false
    else ret true
  else ret true.

Definition get_distance_between_points (p_start p_end : list pyfloat)
  : result pyfloat :=
  let a := p_start in
  let b := p_end in
  (d <- np_sub a b ;;
   Returned (np_linalg_norm d))%result.

Definition get_distance_from_desired_point (current_position : Point.t)
  : result pyfloat :=
  let curr_position :=
    [ Point.x current_position; Point.y current_position;
      Point.z current_position ] in
  let des_position :=
    [ Point.x desired_position; Point.y desired_position;
      Point.z desired_position ] in
  get_distance_between_points curr_position des_position.

Definition get_difference_between_orientations (ostart o_end : list pyfloat)
  : M St pyfloat :=
  if geo_distance cfg then
    n <- liftR (np_dot ostart ostart) ;;
    if pf_gtb n (Fin 0) then
      liftR
        (o0 <- getitem ostart 0 ;;
         pair <- np_array numpy_legacy
                   [Sc o0;
                    of_floats (np_scale (Fin (-1)) (slice 1 4 ostart))] ;;
         n' <- np_dot ostart ostart ;;
         ostart_conj <- npv_binop pf_div pair (Sc n') ;;
         o_product <- npv_binop pf_mul ostart_conj (of_floats o_end) ;;
         o_product_vector <- npv_slice 1 4 o_product ;;
         v_product_norm <- npv_linalg_norm o_product_vector ;;
         pp <- npv_dot o_product o_product ;;
         pp' <- to_float pp ;;
         o_product_norm <- math_sqrt pp' ;;
         let tolerance := Fin 1e-17 in
         o_diff <- (if pf_ltb o_product_norm tolerance
                    then a <- np_array numpy_legacy
                                [Sc (pf_opp PInf);
                                 npv_map (pf_mul NaN) o_product_vector] ;;
                         Returned (Some a)
                    else Returned None) ;;
         small <- npv_truth
                    (npv_map (fun v => of_bool (pf_ltb v tolerance))
                       v_product_norm) ;;
         o_diff <- (if small
                    then l <- math_log o_product_norm ;;
                         a <- np_array numpy_legacy
                                [Sc l; Sc (Fin 0); Sc (Fin 0); Sc (Fin 0)] ;;
                         Returned (Some a)
                    else Returned o_diff) ;;
         vec <- npv_binop pf_div o_product_vector v_product_norm ;;
         l <- math_log o_product_norm ;;
         p0 <- npv_index o_product 0 ;;
         c <- npv_binop pf_div p0 (Sc o_product_norm) ;;
         c' <- to_float c ;;
         angle <- math_acos c' ;;
         v <- npv_binop pf_mul (Sc angle) vec ;;
         o_diff <- np_array_dtype (Sc l) v ;;
         dd <- npv_dot o_diff o_diff ;;
         dd' <- to_float dd ;;
         difference <- math_sqrt dd' ;;
         Returned difference)%result
    else
      logerr
        "can not compute the orientation difference of a quaternion with 0 norm"
        [] ;;
      ret NaN
  else
    liftR
      (ostart_minus_o_end <- np_sub ostart o_end ;;
       ostart_plus_o_end <- np_add ostart o_end ;;
       mm <- np_dot ostart_minus_o_end ostart_minus_o_end ;;
       d_minus <- math_sqrt mm ;;
       pp <- np_dot ostart_plus_o_end ostart_plus_o_end ;;
       d_plus <- math_sqrt pp ;;
       if pf_ltb d_minus d_plus then Returned d_minus
       else Returned d_plus)%result.

Definition get_difference_from_desired_orientation
  (current_orientation : Quaternion.t) : M St pyfloat :=
  let curr_orientation :=
    [ Quaternion.w current_orientation; Quaternion.x current_orientation;
      Quaternion.y current_orientation; Quaternion.z current_orientation ] in
  let des_orientation :=
    [ Quaternion.w desired_orientation; Quaternion.x desired_orientation;
      Quaternion.y desired_orientation; Quaternion.z desired_orientation ] in
  get_difference_between_orientations curr_orientation des_orientation.

(** *** Methods called by [RobotSimEnv] *)

Definition _pre_reset : M St unit :=
  command sim_unpause ;;
  (if use_pose_estimator cfg then
     command _stop_pose_estimator ;;
     ok <- request (_set_arming_request false) ;;
     when ok (loginfo "Disarming successful!" [])
   else
     ok <- request (_set_arming_request false) ;;
     when ok (loginfo "Disarming successful!" [])) ;;
  command (rospy_sleep (Fin 2)).

Definition _set_init_pose : M St bool := ret true.

Definition _init_env_variables : M St unit :=
  command sim_unpause ;;
  when (use_pose_estimator cfg) (command _reset_pose_estimator) ;;
  command _check_all_systems_ready ;;
  armed <- request (_set_arming_request true) ;;
  when armed (loginfo "Arming successful!" []) ;;
  airborne <- request (_set_takeoff_request (Fin 1)) ;;
  when airborne (loginfo "Takeoff successful!" []) ;;
  modify (set_cumulated_reward (Fin 0)) ;;
  curr_pose <- sensor pose ;;
  d <- liftR (get_distance_from_desired_point
                (Pose.position (PoseStamped.pose curr_pose))) ;;
  modify (set_previous_distance_from_des_point d) ;;
  o <- get_difference_from_desired_orientation
         (Pose.orientation (PoseStamped.pose curr_pose)) ;;
  modify (set_previous_difference_from_des_orientation o).

Definition _set_action (action : list pyfloat) : M St unit :=
  a0 <- liftR (getitem action 0) ;;
  a1 <- liftR (getitem action 1) ;;
  a2 <- liftR (getitem action 2) ;;
  a3 <- liftR (getitem action 3) ;;
  let action_vel :=
    {| TwistStamped.twist :=
         {| Twist.linear :=
              {| Vector3.x := a0; Vector3.y := a1; Vector3.z := a2 |};
            Twist.angular :=
              {| Vector3.x := Fin 0; Vector3.y := Fin 0; Vector3.z := a3 |}
         |} |}
  in
  command (pub_cmd_vel action_vel) ;;
  logdebug "END Set Action ==>" action.

Definition _get_obs : M St Observation :=
  logdebug "Start Get Observation ==>" [] ;;
  curr_pose <- sensor pose ;;
  curr_vel <- sensor velocity ;;
  curr_front_camera <- sensor front_camera ;;
  let p := PoseStamped.pose curr_pose in
  let t := TwistStamped.twist curr_vel in
  let numeric_obs :=
    [ Point.x (Pose.position p); Point.y (Pose.position p);
      Point.z (Pose.position p);
      Quaternion.w (Pose.orientation p); Quaternion.x (Pose.orientation p);
      Quaternion.y (Pose.orientation p); Quaternion.z (Pose.orientation p);
      Vector3.x (Twist.linear t); Vector3.y (Twist.linear t);
      Vector3.z (Twist.linear t);
      Vector3.x (Twist.angular t); Vector3.y (Twist.angular t);
      Vector3.z (Twist.angular t) ] in
  ret (numeric_obs, curr_front_camera).

Definition _is_done (observations : Observation) : M St pyfloat :=
  let current_pose := slice 0 7 (fst observations) in
  let current_position := slice 0 3 (fst observations) in
  let current_orientation := slice 3 7 (fst observations) in
  has_collided <- sensor collision_check ;;
  is_inside_workspace_now <- liftR (is_inside_workspace current_position) ;;
  p2 <- liftR (getitem current_position 2) ;;
  let too_close_to_grnd := too_close_to_ground (pf_mul (Fin (-1)) p2) in
  drone_flipped <- drone_has_flipped current_orientation ;;
  has_reached_des_pose <-
    liftR (is_in_desired_pose current_pose (desired_pose_epsilon cfg)) ;;
  when (truthy has_collided) (logerr "UAV has collided!" []) ;;
  when (negb is_inside_workspace_now) (logerr "UAV is outside workspace!" []) ;;
  when too_close_to_grnd (logerr "UAV is too_close_to_ground!" []) ;;
  when drone_flipped (logerr "UAV has_flipped!" []) ;;
  when has_reached_des_pose
    (logerr "UAV has_reached the desired pose! Congrats" []) ;;
  let episode_done :=
    py_or has_collided
      (py_or (of_bool (negb is_inside_workspace_now))
         (py_or (of_bool too_close_to_grnd)
            (py_or (of_bool drone_flipped) (of_bool has_reached_des_pose)))) in
  ret episode_done.

(** The local variable [reward] is unbound until a branch assigns it. *)
Definition _compute_reward (observations : Observation) (done : pyfloat)
  : M St pyfloat :=
  o0 <- liftR (getitem (fst observations) 0) ;;
  o1 <- liftR (getitem (fst observations) 1) ;;
  o2 <- liftR (getitem (fst observations) 2) ;;
  o3 <- liftR (getitem (fst observations) 3) ;;
  o4 <- liftR (getitem (fst observations) 4) ;;
  o5 <- liftR (getitem (fst observations) 5) ;;
  o6 <- liftR (getitem (fst observations) 6) ;;
  let current_pose :=
    {| PoseStamped.pose :=
         {| Pose.position := {| Point.x := o0; Point.y := o1; Point.z := o2 |};
            Pose.orientation :=
              {| Quaternion.x := o4; Quaternion.y := o5; Quaternion.z := o6;
                 Quaternion.w := o3 |} |} |} in
  distance_from_des_point <-
    liftR (get_distance_from_desired_point
             (Pose.position (PoseStamped.pose current_pose))) ;;
  difference_from_des_orientation <-
    get_difference_from_desired_orientation
      (Pose.orientation (PoseStamped.pose current_pose)) ;;
  previous_distance <- gets (@previous_distance_from_des_point W) ;;
  previous_difference <- gets (@previous_difference_from_des_orientation W) ;;
  let distance_difference :=
    pf_add (pf_sub distance_from_des_point previous_distance)
      (pf_mul (Fin 2)
         (pf_sub difference_from_des_orientation previous_difference)) in
  reward <-
    (if negb (truthy done) then
       collided <- sensor collision_check ;;
       reward <- (if truthy collided
                  then r <- sensor collision_check ;; ret (Some r)
                  else ret None) ;;
       if pf_ltb distance_difference (Fin 0) then
         logwarn "DECREASE IN DISTANCE GOOD" [] ;;
         ret (Some (closer_to_point_reward cfg))
       else
         logerr "INCREASE IN DISTANCE BAD" [] ;;
         ret (Some (Fin 0))
     else
       collided <- sensor collision_check ;;
       if truthy collided then ret (Some (collision_penalty cfg))
       else
         at_goal <- liftR (is_in_desired_pose (slice 0 7 (fst observations))
                             (Fin 0.5)) ;;
         if at_goal then ret (Some (end_episode_points cfg))
         else ret (Some (pf_mul (Fin (-1)) (end_episode_points cfg)))) ;;
  modify (set_previous_distance_from_des_point distance_from_des_point) ;;
  modify (set_previous_difference_from_des_orientation
            difference_from_des_orientation) ;;
  reward <- match reward with
            | Some r => ret r
            | None => raise UnboundLocalError
            end ;;
  logdebug "reward=" [reward] ;;
  total <- gets (@cumulated_reward W) ;;
  modify (set_cumulated_reward (pf_add total reward)) ;;
  total <- gets (@cumulated_reward W) ;;
  logdebug "Cumulated_reward=" [total] ;;
  steps <- gets (@cumulated_steps W) ;;
  modify (set_cumulated_steps (steps + 1)%Z) ;;
  steps <- gets (@cumulated_steps W) ;;
  logdebug "Cumulated_steps=" [Fin (IZR steps)] ;;
  ret reward.

End UAVFollowTrajectoryTaskEnv.

(** ** class RobotSimEnv

    The base class keeps the episode number, the reward cumulated over the
    episode and the publisher of [/openai/reward]; everything else belongs
    to the subclass.  [Methods] are the methods a subclass defines and the
    three methods of its simulation handler; they work on the attributes of
    the subclass ([Sub]) and do not assign the three attributes of the base
    class. *)

Module RobotSimEnv.

Record RLExperimentInfo : Type :=
  { episode_number : Z; episode_reward : pyfloat }.

Record Methods (Sub Action Obs : Type) : Type := {
  sim_handler_unpause : M Sub unit;
  sim_handler_pause : M Sub unit;
  sim_handler_reset : M Sub unit;
  _pre_reset : M Sub unit;
  _set_init_pose : M Sub bool;
  _init_env_variables : M Sub unit;
  _get_obs : M Sub Obs;
  _set_action : Action -> M Sub unit;
  _is_done : Obs -> M Sub pyfloat;
  _compute_reward : Obs -> pyfloat -> M Sub pyfloat
}.

(** The methods as [RobotSimEnv] and [SimulationHandler] define them. *)
Definition abstract (Sub Action Obs : Type) : Methods Sub Action Obs :=
  {| sim_handler_unpause := raise NotImplementedError;
     sim_handler_pause := raise NotImplementedError;
     sim_handler_reset := raise NotImplementedError;
     _pre_reset := raise NotImplementedError;
     _set_init_pose := raise NotImplementedError;
     _init_env_variables := raise NotImplementedError;
     _get_obs := raise NotImplementedError;
     _set_action := fun _ => raise NotImplementedError;
     _is_done := fun _ => raise NotImplementedError;
     _compute_reward := fun _ _ => raise NotImplementedError |}.

Record Env (Sub : Type) : Type := {
  self : Sub;
  episode_num : Z;
  cumulated_episode_reward : pyfloat;
  reward_pub : list RLExperimentInfo
}.

(** The value [info = {}] of [step]. *)
Definition Info : Type := list (string * pyfloat).

Section Class.

Context {Sub Action Obs : Type}.
Variable methods : Methods Sub Action Obs.

Local Open Scope method_scope.

(** [__init__]. *)
Definition init (s : Sub) : Env Sub :=
  {| self := s;
     episode_num := 0;
     cumulated_episode_reward := Fin 0;
     reward_pub := [] |}.

(** A call of a method of the subclass. *)
Definition call {A} (c : M Sub A) : M (Env Sub) A :=
  fun e => match c (self e) with
           | Returned (a, s) =>
               Returned (a, {| self := s;
                               episode_num := episode_num e;
                               cumulated_episode_reward :=
                                 cumulated_episode_reward e;
                               reward_pub := reward_pub e |})
           | Raised x => Raised x
           end.

Definition _publish_reward_topic (reward : pyfloat) (episode_number : Z)
  : M (Env Sub) unit :=
  let reward_msg :=
    {| episode_number := episode_number; episode_reward := reward |} in
  modify (fun e =>
    {| self := self e;
       episode_num := episode_num e;
       cumulated_episode_reward := cumulated_episode_reward e;
       reward_pub := reward_pub e ++ [reward_msg] |}).

Definition _update_episode : M (Env Sub) unit :=
  r <- gets (@cumulated_episode_reward Sub) ;;
  n <- gets (@episode_num Sub) ;;
  _publish_reward_topic r n ;;
  modify (fun e =>
    {| self := self e;
       episode_num := (episode_num e + 1)%Z;
       cumulated_episode_reward := cumulated_episode_reward e;
       reward_pub := reward_pub e |}) ;;
  modify (fun e =>
    {| self := self e;
       episode_num := episode_num e;
       cumulated_episode_reward := Fin 0;
       reward_pub := reward_pub e |}).

Definition step (action : Action)
  : M (Env Sub) (Obs * pyfloat * pyfloat * Info) :=
  call (sim_handler_unpause methods) ;;
  call (_set_action methods action) ;;
  call (sim_handler_pause methods) ;;
  obs <- call (_get_obs methods) ;;
  done <- call (_is_done methods obs) ;;
  let info : Info := [] in
  reward <- call (_compute_reward methods obs done) ;;
  modify (fun e =>
    {| self := self e;
       episode_num := episode_num e;
       cumulated_episode_reward :=
         pf_add (cumulated_episode_reward e) reward;
       reward_pub := reward_pub e |}) ;;
  ret (obs, reward, done, info).

Definition reset : M (Env Sub) Obs :=
  call (_pre_reset methods) ;;
  call (sim_handler_pause methods) ;;
  call (sim_handler_reset methods) ;;
  call (_set_init_pose methods) ;;
  call (_init_env_variables methods) ;;
  _update_episode ;;
  obs <- call (_get_obs methods) ;;
  ret obs.

(** One call of [step] for each action of a list, in order; the values
    returned, in order. *)
Fixpoint steps (actions : list Action)
  : M (Env Sub) (list (Obs * pyfloat * pyfloat * Info)) :=
  match actions with
  | [] => ret []
  | a :: rest =>
      out <- step a ;;
      outs <- steps rest ;;
      ret (out :: outs)
  end.

End Class.

(** The reward in a value returned by [step]. *)
Definition reward_of {Obs} (out : Obs * pyfloat * pyfloat * Info) : pyfloat :=
  snd (fst (fst out)).

End RobotSimEnv.

(** The sum of a list of rewards. *)
Definition pf_sum (l : list pyfloat) : pyfloat := fold_right pf_add (Fin 0) l.

(** [UAVFollowTrajectoryTaskEnv] as a subclass of [RobotSimEnv]. *)
Definition uav_methods {W Cam : Type} {backend : Backend W Cam} (cfg : Config)
  : RobotSimEnv.Methods (State W) (list pyfloat) (@Observation Cam) :=
  {| RobotSimEnv.sim_handler_unpause := command sim_unpause;
     RobotSimEnv.sim_handler_pause := command sim_pause;
     RobotSimEnv.sim_handler_reset := command sim_reset;
     RobotSimEnv._pre_reset := _pre_reset cfg;
     RobotSimEnv._set_init_pose := _set_init_pose;
     RobotSimEnv._init_env_variables := _init_env_variables cfg;
     RobotSimEnv._get_obs := _get_obs;
     RobotSimEnv._set_action := _set_action;
     RobotSimEnv._is_done := _is_done cfg;
     RobotSimEnv._compute_reward := _compute_reward cfg |}.

(** ** Order on Python numbers, as propositions *)

Definition pf_lt (x y : pyfloat) : Prop := pf_ltb x y = true.
Definition pf_le (x y : pyfloat) : Prop := pf_leb x y = true.

(** A configuration with other workspace bounds. *)
Definition set_work_space (x_min x_max y_min y_max z_min z_max : pyfloat)
  (cfg : Config) : Config :=
  {| work_space_x_max := x_max;
     work_space_x_min := x_min;
     work_space_y_max := y_max;
     work_space_y_min := y_min;
     work_space_z_max := z_max;
     work_space_z_min := z_min;
     min_height := min_height cfg;
     desired_pose := desired_pose cfg;
     desired_pose_epsilon := desired_pose_epsilon cfg;
     geo_distance := geo_distance cfg;
     closer_to_point_reward := closer_to_point_reward cfg;
     collision_penalty := collision_penalty cfg;
     end_episode_points := end_episode_points cfg;
     use_pose_estimator := use_pose_estimator cfg |}.

(** The line that [_is_done] logs for a flag that is set. *)
Definition report (flag : bool) (text : string) : list LogEntry :=
  if flag
  then [{| log_level := LogErr; log_text := text; log_values := [] |}]
  else [].

Definition termination_reports
  (collided outside too_close flipped reached : bool) : list LogEntry :=
  report collided "UAV has collided!" ++
  report outside "UAV is outside workspace!" ++
  report too_close "UAV is too_close_to_ground!" ++
  report flipped "UAV has_flipped!" ++
  report reached "UAV has_reached the desired pose! Congrats".

(** ** A concrete instance

    A simulator in which every command succeeds and changes nothing: the
    world is the pose of the robot and its collision flag.  The robot is
    level ([euler_from_quaternion] gives zero angles) and numpy is 1.24 or
    later. *)

Definition hover_world : Type := PoseStamped.t * pyfloat.

Definition twist_zero : TwistStamped.t :=
  {| TwistStamped.twist :=
       {| Twist.linear :=
            {| Vector3.x := Fin 0; Vector3.y := Fin 0; Vector3.z := Fin 0 |};
          Twist.angular :=
            {| Vector3.x := Fin 0; Vector3.y := Fin 0; Vector3.z := Fin 0 |}
       |} |}.

Definition hover_backend : Backend hover_world unit :=
  {| sim_unpause := fun w => w;
     sim_pause := fun w => w;
     sim_reset := fun w => w;
     pose := fst;
     velocity := fun _ => twist_zero;
     front_camera := fun _ => tt;
     collision_check := snd;
     _set_arming_request := fun _ w => (true, w);
     _set_takeoff_request := fun _ w => (true, w);
     _stop_pose_estimator := fun w => w;
     _reset_pose_estimator := fun w => w;
     _check_all_systems_ready := fun w => w;
     pub_cmd_vel := fun _ w => w;
     rospy_sleep := fun _ w => w;
     rospy_get_param := fun _ _ => Fin 1;
     euler_from_quaternion := fun _ => (Fin 0, Fin 0, Fin 0);
     numpy_legacy := false |}.

Definition make_pose (x y z qw qx qy qz : R) : PoseStamped.t :=
  {| PoseStamped.pose :=
       {| Pose.position :=
            {| Point.x := Fin x; Point.y := Fin y; Point.z := Fin z |};
          Pose.orientation :=
            {| Quaternion.x := Fin qx; Quaternion.y := Fin qy;
               Quaternion.z := Fin qz; Quaternion.w := Fin qw |} |} |}.

(** Workspace (-10,10] x (-10,10] x (-5,0] with the vertical axis pointing
    down, goal two metres up and level, absolute orientation distance. *)
Definition example_cfg : Config :=
  {| work_space_x_max := Fin 10;
     work_space_x_min := Fin (-10);
     work_space_y_max := Fin 10;
     work_space_y_min := Fin (-10);
     work_space_z_max := Fin 0;
     work_space_z_min := Fin (-5);
     min_height := Fin 1;
     desired_pose := make_pose 0 0 (-2) 1 0 0 0;
     desired_pose_epsilon := Fin 0.05;
     geo_distance := false;
     closer_to_point_reward := Fin 10;
     collision_penalty := Fin (-100);
     end_episode_points := Fin 200;
     use_pose_estimator := false |}.

Definition set_geo_distance (b : bool) (cfg : Config) : Config :=
  {| work_space_x_max := work_space_x_max cfg;
     work_space_x_min := work_space_x_min cfg;
     work_space_y_max := work_space_y_max cfg;
     work_space_y_min := work_space_y_min cfg;
     work_space_z_max := work_space_z_max cfg;
     work_space_z_min := work_space_z_min cfg;
     min_height := min_height cfg;
     desired_pose := desired_pose cfg;
     desired_pose_epsilon := desired_pose_epsilon cfg;
     geo_distance := b;
     closer_to_point_reward := closer_to_point_reward cfg;
     collision_penalty := collision_penalty cfg;
     end_episode_points := end_episode_points cfg;
     use_pose_estimator := use_pose_estimator cfg |}.

(** The attributes of an environment in the world [w] whose previous
    distances are [d] and [o]. *)
Definition example_state (w : hover_world) (d o : R) : State hover_world :=
  {| world := w;
     cumulated_reward := Fin 0;
     cumulated_steps := 0;
     previous_distance_from_des_point := Fin d;
     previous_difference_from_des_orientation := Fin o;
     max_roll := Fin 1;
     max_pitch := Fin 1;
     rospy_log := [] |}.

(** The numeric observation of a robot at rest in the pose given. *)
Definition example_obs (x y z qw qx qy qz : R) : list pyfloat :=
  [Fin x; Fin y; Fin z; Fin qw; Fin qx; Fin qy; Fin qz;
   Fin 0; Fin 0; Fin 0; Fin 0; Fin 0; Fin 0].

(** A number that is not negative: what a sum of squares is. *)
Definition nonneg_or_nan (y : pyfloat) : Prop :=
  match y with Fin r => 0 <= r | NInf => False | _ => True end.

(** The pose in the first seven numbers of an observation. *)
Definition obs_position (numeric : list pyfloat) : Point.t :=
  {| Point.x := nth 0 numeric NaN; Point.y := nth 1 numeric NaN;
     Point.z := nth 2 numeric NaN |}.

Definition obs_orientation (numeric : list pyfloat) : Quaternion.t :=
  {| Quaternion.x := nth 4 numeric NaN; Quaternion.y := nth 5 numeric NaN;
     Quaternion.z := nth 6 numeric NaN; Quaternion.w := nth 3 numeric NaN |}.

(** The reward that [_compute_reward] selects, from the change
    [distance_difference] and the collision flag. *)
Definition selected_reward (cfg : Config) (numeric : list pyfloat)
  (done collided distance_difference : pyfloat) : pyfloat :=
  if truthy done then
    if truthy collided then collision_penalty cfg
    else match is_in_desired_pose cfg (slice 0 7 numeric) (Fin 0.5) with
         | Returned true => end_episode_points cfg
         | _ => pf_opp (end_episode_points cfg)
         end
  else
    if pf_ltb distance_difference (Fin 0) then closer_to_point_reward cfg
    else Fin 0.

Definition set_desired_pose_epsilon (eps : pyfloat) (cfg : Config) : Config :=
  {| work_space_x_max := work_space_x_max cfg;
     work_space_x_min := work_space_x_min cfg;
     work_space_y_max := work_space_y_max cfg;
     work_space_y_min := work_space_y_min cfg;
     work_space_z_max := work_space_z_max cfg;
     work_space_z_min := work_space_z_min cfg;
     min_height := min_height cfg;
     desired_pose := desired_pose cfg;
     desired_pose_epsilon := eps;
     geo_distance := geo_distance cfg;
     closer_to_point_reward := closer_to_point_reward cfg;
     collision_penalty := collision_penalty cfg;
     end_episode_points := end_episode_points cfg;
     use_pose_estimator := use_pose_estimator cfg |}.

(** The absolute distance of two real quaternions: the smaller of the norms
    of their difference and of their sum. *)
Definition absolute_distance (a0 a1 a2 a3 b0 b1 b2 b3 : R) : R :=
  Rmin
    (sqrt ((a0 - b0) * (a0 - b0) + (a1 - b1) * (a1 - b1)
           + (a2 - b2) * (a2 - b2) + (a3 - b3) * (a3 - b3)))
    (sqrt ((a0 + b0) * (a0 + b0) + (a1 + b1) * (a1 + b1)
           + (a2 + b2) * (a2 + b2) + (a3 + b3) * (a3 + b3))).

(** The line logged for a quaternion of norm 0. *)
Definition error_0_norm : LogEntry :=
  {| log_level := LogErr;
     log_text :=
       "can not compute the orientation difference of a quaternion with 0 norm";
     log_values := [] |}.

(** [e'] has the attributes of the base class that [e] has. *)
Definition same_base {Sub : Type} (e e' : RobotSimEnv.Env Sub) : Prop :=
  RobotSimEnv.episode_num e' = RobotSimEnv.episode_num e /\
  RobotSimEnv.cumulated_episode_reward e'
    = RobotSimEnv.cumulated_episode_reward e /\
  RobotSimEnv.reward_pub e' = RobotSimEnv.reward_pub e.

(** The robot hovering at the goal of [example_cfg], with collision flag
    [c]. *)
Definition at_goal_world (c : pyfloat) : hover_world :=
  (make_pose 0 0 (-2) 1 0 0 0, c).

Definition at_goal_numeric : list pyfloat := example_obs 0 0 (-2) 1 0 0 0.

Definition unit_quaternion : list pyfloat := [Fin 1; Fin 0; Fin 0; Fin 0].

Definition zero_quaternion : list pyfloat := [Fin 0; Fin 0; Fin 0; Fin 0].

(** ** Notions used in the further properties *)

(** The array that [is_in_desired_pose] builds from the desired pose. *)
Definition desired_pose_array (cfg : Config) : list pyfloat :=
  [ Point.x (desired_position cfg); Point.y (desired_position cfg);
    Point.z (desired_position cfg);
    Quaternion.w (desired_orientation cfg);
    Quaternion.x (desired_orientation cfg);
    Quaternion.y (desired_orientation cfg);
    Quaternion.z (desired_orientation cfg) ].

(** [c] is in the band of half-width [eps] around [d], open below and closed
    above. *)
Definition in_band (eps c d : pyfloat) : Prop :=
  pf_lt (pf_sub d eps) c /\ pf_le c (pf_add d eps).

(** The velocity command that [_set_action] publishes for an action. *)
Definition action_twist (a0 a1 a2 a3 : pyfloat) : TwistStamped.t :=
  {| TwistStamped.twist :=
       {| Twist.linear :=
            {| Vector3.x := a0; Vector3.y := a1; Vector3.z := a2 |};
          Twist.angular :=
            {| Vector3.x := Fin 0; Vector3.y := Fin 0; Vector3.z := a3 |}
       |} |}.

Section ObservationNotions.

Context {W Cam : Type} {backend : Backend W Cam}.

(** The observation of the world [w]. *)
Definition observe (w : W) : list pyfloat * Cam :=
  let p := PoseStamped.pose (pose w) in
  let t := TwistStamped.twist (velocity w) in
  ([ Point.x (Pose.position p); Point.y (Pose.position p);
     Point.z (Pose.position p);
     Quaternion.w (Pose.orientation p); Quaternion.x (Pose.orientation p);
     Quaternion.y (Pose.orientation p); Quaternion.z (Pose.orientation p);
     Vector3.x (Twist.linear t); Vector3.y (Twist.linear t);
     Vector3.z (Twist.linear t);
     Vector3.x (Twist.angular t); Vector3.y (Twist.angular t);
     Vector3.z (Twist.angular t) ],
   front_camera w).

(** [s'] has the world, the counters and the previous distances of [s]. *)
Definition same_episode_state (s s' : State W) : Prop :=
  world s' = world s /\
  cumulated_reward s' = cumulated_reward s /\
  cumulated_steps s' = cumulated_steps s /\
  previous_distance_from_des_point s' = previous_distance_from_des_point s /\
  previous_difference_from_des_orientation s'
    = previous_difference_from_des_orientation s.


End ObservationNotions.

(** ** Sequences of calls to an environment *)

Inductive Call (Action : Type) : Type :=
| CallReset
| CallStep (action : Action).

Arguments CallReset {Action}.
Arguments CallStep {Action} action.

Fixpoint calls {Sub Action Obs : Type}
  (methods : RobotSimEnv.Methods Sub Action Obs) (cs : list (Call Action))
  : M (RobotSimEnv.Env Sub) unit :=
  match cs with
  | [] => ret tt
  | CallReset :: rest =>
      bind (RobotSimEnv.reset methods) (fun _ => calls methods rest)
  | CallStep a :: rest =>
      bind (RobotSimEnv.step methods a) (fun _ => calls methods rest)
  end.

Definition is_reset {Action : Type} (c : Call Action) : bool :=
  match c with CallReset => true | CallStep _ => false end.

(** The episode numbers published are 0, 1, 2, ... and [episode_num] is
    the next one. *)
Definition episodes_numbered {Sub : Type} (e : RobotSimEnv.Env Sub) : Prop :=
  RobotSimEnv.episode_num e = Z.of_nat (length (RobotSimEnv.reward_pub e)) /\
  map RobotSimEnv.episode_number (RobotSimEnv.reward_pub e)
  = map Z.of_nat (seq 0 (length (RobotSimEnv.reward_pub e))).

(** ** reg_gym_env.py

    [gym] is a parameter: [G] is the state of its registry and of the
    interpreter, [register] and the import of the task module change it or
    raise an error of [gym] ([E]), [registry_ids] lists
    [[env_spec.id for env_spec in envs.registry.all()]]. *)

Module RegGymEnv.

Inductive outcome (E A : Type) : Type :=
| Done (a : A)
| AssertionError (message : string)
| LibraryError (e : E).

Arguments Done {E A} a.
Arguments AssertionError {E A} message.
Arguments LibraryError {E A} e.

Record EnvSpec : Type :=
  { id : string; entry_point : string; max_episode_steps : Z }.

Record Gym (G E : Type) : Type := {
  register : EnvSpec -> G -> outcome E G;
  import_task_env : G -> outcome E G;
  registry_ids : G -> list string
}.

Definition known_task_env : string := "uav-follow-trajectory-env-v0".

Definition task_env_entry_point : string :=
  "task_envs.uav_follow_trajectory_task_env:UAVFollowTrajectoryTaskEnv".

Definition register_gym_env {G E : Type} (gym : Gym G E) (task_env : string)
  (max_episode_steps_per_episode : Z) (g : G) : outcome E (bool * G) :=
  let result := true in
  let branch :=
    if String.eqb task_env known_task_env then
      match register gym
              {| id := task_env;
                 entry_point := task_env_entry_point;
                 max_episode_steps := max_episode_steps_per_episode |} g with
      | Done g1 =>
          match import_task_env gym g1 with
          | Done g2 => Done (result, g2)
          | AssertionError m => AssertionError m
          | LibraryError e => LibraryError e
          end
      | AssertionError m => AssertionError m
      | LibraryError e => LibraryError e
      end
    else Done (false, g) in
  match branch with
  | Done (result, g') =>
      if result then
        let supported_gym_envs := registry_ids gym g' in
        if existsb (String.eqb task_env) supported_gym_envs
        then Done (result, g')
        else AssertionError
               ("The Task_Robot_ENV given is not Registered ==>" ++ task_env)
      else Done (result, g')
  | AssertionError m => AssertionError m
  | LibraryError e => LibraryError e
  end.

(** The default of the second parameter. *)
Definition default_max_episode_steps : Z := 10000.

End RegGymEnv.

(** A second simulator: the robot stays level at the goal of [example_cfg]
    whatever is commanded, nothing collides, and the world is the value that
    every ROS parameter has. *)
Definition level_backend : Backend pyfloat unit :=
  {| sim_unpause := fun w => w;
     sim_pause := fun w => w;
     sim_reset := fun w => w;
     pose := fun _ => make_pose 0 0 (-2) 1 0 0 0;
     velocity := fun _ => twist_zero;
     front_camera := fun _ => tt;
     collision_check := fun _ => Fin 0;
     _set_arming_request := fun _ w => (true, w);
     _set_takeoff_request := fun _ w => (true, w);
     _stop_pose_estimator := fun w => w;
     _reset_pose_estimator := fun w => w;
     _check_all_systems_ready := fun w => w;
     pub_cmd_vel := fun _ w => w;
     rospy_sleep := fun _ w => w;
     rospy_get_param := fun _ w => w;
     euler_from_quaternion := fun _ => (Fin 0, Fin 0, Fin 0);
     numpy_legacy := false |}.

Definition level_state (w : pyfloat) : State pyfloat :=
  {| world := w;
     cumulated_reward := Fin 0;
     cumulated_steps := 0;
     previous_distance_from_des_point := Fin 0;
     previous_difference_from_des_orientation := Fin 0;
     max_roll := Fin 1;
     max_pitch := Fin 1;
     rospy_log := [] |}.

(** A registry that is the list of the ids registered; registering and
    importing never fail. *)
Definition list_gym : RegGymEnv.Gym (list string) Empty_set :=
  {| RegGymEnv.register :=
       fun spec g => RegGymEnv.Done (RegGymEnv.id spec :: g);
     RegGymEnv.import_task_env := fun g => RegGymEnv.Done g;
     RegGymEnv.registry_ids := fun g => g |}.

(** The observation of a robot at the goal position whose orientation
    quaternion is 0. *)
Definition zero_norm_numeric : list pyfloat := example_obs 0 0 (-2) 0 0 0 0.

(** * Properties *)

Unset Implicit Arguments.

(** ** Real comparisons *)

Lemma Rltb_true (a b : R) : Rltb a b = true <-> a < b.
Proof. unfold Rltb. destruct (Rlt_dec a b); split; intros; try lra; easy. Qed.

Lemma Rltb_false (a b : R) : Rltb a b = false <-> b <= a.
Proof. unfold Rltb. destruct (Rlt_dec a b); split; intros; try lra; easy. Qed.

Lemma Rleb_true (a b : R) : Rleb a b = true <-> a <= b.
Proof. unfold Rleb. destruct (Rle_dec a b); split; intros; try lra; easy. Qed.

Lemma Rleb_false (a b : R) : Rleb a b = false <-> b < a.
Proof. unfold Rleb. destruct (Rle_dec a b); split; intros; try lra; easy. Qed.

Lemma Reqb_true (a b : R) : Reqb a b = true <-> a = b.
Proof. unfold Reqb. destruct (Req_dec_T a b); split; intros; try lra; easy. Qed.

Lemma Reqb_false (a b : R) : Reqb a b = false <-> a <> b.
Proof. unfold Reqb. destruct (Req_dec_T a b); split; intros; try lra; easy. Qed.

(** Decide every comparison of reals in the goal, closing the impossible
    cases by linear arithmetic. *)
Ltac Rdecide :=
  unfold Rltb, Rleb, Reqb in *;
  repeat match goal with
    | |- context [Rlt_dec ?a ?b] => destruct (Rlt_dec a b); try lra
    | |- context [Rle_dec ?a ?b] => destruct (Rle_dec a b); try lra
    | |- context [Req_dec_T ?a ?b] => destruct (Req_dec_T a b); try lra
    | H : context [Rlt_dec ?a ?b] |- _ => destruct (Rlt_dec a b); try lra
    | H : context [Rle_dec ?a ?b] |- _ => destruct (Rle_dec a b); try lra
    | H : context [Req_dec_T ?a ?b] |- _ => destruct (Req_dec_T a b); try lra
    end.

Lemma truthy_of_bool (b : bool) : truthy (of_bool b) = b.
Proof.
  destruct b; unfold truthy, of_bool, pf_is_zero; Rdecide; reflexivity.
Qed.

Lemma truthy_py_or (a b : pyfloat) :
  truthy (py_or a b) = truthy a || truthy b.
Proof. unfold py_or. destruct (truthy a) eqn:E; [exact E | reflexivity]. Qed.

Lemma pf_mul_m1 (x : pyfloat) : pf_mul (Fin (-1)) x = pf_opp x.
Proof.
  destruct x; simpl; unfold pf_is_zero, pf_is_neg; Rdecide;
    try reflexivity.
  f_equal. lra.
Qed.

Lemma pf_lt_Fin (a b : R) : pf_lt (Fin a) (Fin b) <-> a < b.
Proof. apply Rltb_true. Qed.

Lemma pf_le_Fin (a b : R) : pf_le (Fin a) (Fin b) <-> a <= b.
Proof. apply Rleb_true. Qed.

Ltac list_of_length l H :=
  repeat (let x := fresh "x" in
          destruct l as [|x l]; simpl in H; try discriminate H).

Ltac case_if :=
  match goal with |- context [if ?c then _ else _] => destruct c end.

(** ** Workspace bounds *)

Lemma is_inside_workspace_value (cfg : Config) (x y z : pyfloat) :
  is_inside_workspace cfg [x; y; z] =
  Returned
    ((pf_gtb x (work_space_x_min cfg) && pf_leb x (work_space_x_max cfg))
     && (pf_gtb y (work_space_y_min cfg) && pf_leb y (work_space_y_max cfg))
     && (pf_gtb z (work_space_z_min cfg) && pf_leb z (work_space_z_max cfg))).
Proof.
  unfold is_inside_workspace; simpl.
  destruct (pf_gtb x _ && pf_leb x _); simpl; [|reflexivity].
  destruct (pf_gtb y _ && pf_leb y _); simpl; [|reflexivity].
  destruct (pf_gtb z _ && pf_leb z _); reflexivity.
Qed.

(** C8.  For every position [(x, y, z)] and every configuration,
    [is_inside_workspace] returns, and it returns true exactly when on each
    axis the component is strictly greater than the minimum bound and less
    than or equal to the maximum bound.  With the bounds (0,10], (0,10],
    (0,5]: (5,5,2.5) is inside, (0,5,2.5) is outside and (10,5,2.5) is
    inside. *)
Theorem is_inside_workspace_bounds (cfg : Config) (x y z : pyfloat) :
  (exists b, is_inside_workspace cfg [x; y; z] = Returned b) /\
  (is_inside_workspace cfg [x; y; z] = Returned true <->
     (pf_lt (work_space_x_min cfg) x /\ pf_le x (work_space_x_max cfg)) /\
     (pf_lt (work_space_y_min cfg) y /\ pf_le y (work_space_y_max cfg)) /\
     (pf_lt (work_space_z_min cfg) z /\ pf_le z (work_space_z_max cfg))) /\
  (let box :=
     set_work_space (Fin 0) (Fin 10) (Fin 0) (Fin 10) (Fin 0) (Fin 5) cfg in
   is_inside_workspace box [Fin 5; Fin 5; Fin 2.5] = Returned true /\
   is_inside_workspace box [Fin 0; Fin 5; Fin 2.5] = Returned false /\
   is_inside_workspace box [Fin 10; Fin 5; Fin 2.5] = Returned true).
Proof.
  split; [|split].
  - rewrite is_inside_workspace_value. eexists; reflexivity.
  - rewrite is_inside_workspace_value. unfold pf_lt, pf_le, pf_gtb.
    split.
    + intros H. injection H as H.
      rewrite !andb_true_iff in H. tauto.
    + intros [[H1 H2] [[H3 H4] [H5 H6]]].
      rewrite H1, H2, H3, H4, H5, H6. reflexivity.
  - cbv zeta. rewrite !is_inside_workspace_value. unfold pf_gtb; simpl.
    repeat split; Rdecide; reflexivity.
Qed.

(** ** Termination *)

Section Termination.

Context {W Cam : Type} {backend : Backend W Cam}.

Lemma drone_has_flipped_returns (o : list pyfloat) (st : State W) :
  length o = 4%nat ->
  exists b st1,
    drone_has_flipped o st = Returned (b, st1) /\
    world st1 = world st /\ rospy_log st1 = rospy_log st.
Proof.
  intros H. list_of_length o H.
  unfold drone_has_flipped, bind, liftR, sensor, gets, modify. simpl.
  destruct (euler_from_quaternion _) as [[r p] yw]. simpl.
  repeat case_if; do 2 eexists; repeat split; reflexivity.
Qed.

Lemma is_in_desired_pose_returns (cfg : Config) (p : list pyfloat)
  (eps : pyfloat) :
  length p = 7%nat -> exists b, is_in_desired_pose cfg p eps = Returned b.
Proof.
  intros H. list_of_length p H.
  unfold is_in_desired_pose, np_le, np_gt, np_binop, broadcast2. simpl.
  case_if; eexists; reflexivity.
Qed.

(** What a call of [_is_done] on an observation of thirteen numbers does. *)
Lemma _is_done_run (cfg : Config) (st : State W) (numeric : list pyfloat)
  (cam : Cam) :
  length numeric = 13%nat ->
  exists inside flipped reached st1,
    is_inside_workspace cfg (slice 0 3 numeric) = Returned inside /\
    drone_has_flipped (slice 3 7 numeric) st = Returned (flipped, st1) /\
    rospy_log st1 = rospy_log st /\
    is_in_desired_pose cfg (slice 0 7 numeric) (desired_pose_epsilon cfg)
      = Returned reached /\
    let collided := collision_check (world st) in
    let too_close :=
      too_close_to_ground cfg (pf_mul (Fin (-1)) (nth 2 numeric NaN)) in
    _is_done cfg (numeric, cam) st =
      Returned
        (py_or collided
           (py_or (of_bool (negb inside))
              (py_or (of_bool too_close)
                 (py_or (of_bool flipped) (of_bool reached)))),
         set_rospy_log
           (rospy_log st1 ++
              termination_reports (truthy collided) (negb inside) too_close
                flipped reached) st1).
Proof.
  intros H. list_of_length numeric H.
  unfold _is_done. cbn [fst slice firstn skipn nth].
  rewrite is_inside_workspace_value.
  destruct (is_in_desired_pose_returns cfg [x; x0; x1; x2; x3; x4; x5]
              (desired_pose_epsilon cfg) eq_refl) as [reached Ere].
  destruct (drone_has_flipped_returns [x2; x3; x4; x5] st eq_refl)
    as (flipped & st1 & Hfl & Hw & Hlog).
  eexists; exists flipped, reached, st1.
  split; [reflexivity|]. split; [exact Hfl|]. split; [exact Hlog|].
  split; [exact Ere|].
  unfold bind, sensor, gets, liftR. cbn [getitem nth_error].
  rewrite Hfl, Ere. clear Hfl Hw Hlog Ere.
  destruct st1 as [w1 cr1 cs1 pd1 po1 mr1 mp1 lg1].
  unfold termination_reports, report, too_close_to_ground.
  destruct (truthy (collision_check (world st))),
    (pf_gtb x (work_space_x_min cfg) && pf_leb x (work_space_x_max cfg)
     && (pf_gtb x0 (work_space_y_min cfg) && pf_leb x0 (work_space_y_max cfg))
     && (pf_gtb x1 (work_space_z_min cfg) && pf_leb x1 (work_space_z_max cfg))),
    (pf_ltb (pf_mul (Fin (-1)) x1) (min_height cfg)), flipped, reached;
    cbn; unfold set_rospy_log; cbn; repeat rewrite <- app_assoc; cbn;
    try rewrite app_nil_r; reflexivity.
Qed.

(** C2.  On every observation (thirteen numbers and a camera frame) and in
    every state of the environment, so for every collision flag, [_is_done]
    evaluates the workspace test, the ground test, the flip test and the
    goal test, all of which return, logs one line for each flag that is
    set, and returns a value whose truth is
    collided OR NOT inside OR too close to ground OR flipped OR reached. *)
Theorem _is_done_flags (cfg : Config) (st : State W) (numeric : list pyfloat)
  (cam : Cam) :
  length numeric = 13%nat ->
  exists inside flipped reached st1 done st',
    is_inside_workspace cfg (slice 0 3 numeric) = Returned inside /\
    drone_has_flipped (slice 3 7 numeric) st = Returned (flipped, st1) /\
    is_in_desired_pose cfg (slice 0 7 numeric) (desired_pose_epsilon cfg)
      = Returned reached /\
    _is_done cfg (numeric, cam) st = Returned (done, st') /\
    let collided := truthy (collision_check (world st)) in
    let too_close :=
      too_close_to_ground cfg (pf_mul (Fin (-1)) (nth 2 numeric NaN)) in
    truthy done = collided || negb inside || too_close || flipped || reached
    /\ rospy_log st' =
         rospy_log st ++
           termination_reports collided (negb inside) too_close flipped
             reached.
Proof.
  intros H.
  destruct (_is_done_run cfg st numeric cam H)
    as (inside & flipped & reached & st1 & Hin & Hfl & Hlog & Hre & Hrun).
  cbv zeta in Hrun.
  exists inside, flipped, reached, st1. do 2 eexists.
  split; [exact Hin|]. split; [exact Hfl|]. split; [exact Hre|].
  split; [exact Hrun|].
  cbv zeta. split.
  - rewrite !truthy_py_or, !truthy_of_bool, !orb_assoc. reflexivity.
  - simpl. rewrite Hlog. reflexivity.
Qed.

Lemma opp_below_min_height (z_min z m : pyfloat) :
  pf_le (Fin 0) z_min -> pf_gtb z z_min = true -> pf_le (Fin 0) m ->
  pf_ltb (pf_mul (Fin (-1)) z) m = true.
Proof.
  rewrite pf_mul_m1. unfold pf_le, pf_gtb.
  destruct z_min, z, m; simpl; intros; try discriminate; try reflexivity;
    Rdecide; try discriminate; reflexivity.
Qed.

(** C9.  If the lower z-bound of the workspace and the minimum height are
    both non-negative, [_is_done] returns a true value on every observation
    and for every collision flag: a position inside the workspace has
    [z > 0], so the ground test on [-z] fires, and a position outside
    the workspace ends the episode by the bounds flag. *)
Theorem _is_done_true_when_bounds_nonnegative (cfg : Config) (st : State W)
  (numeric : list pyfloat) (cam : Cam) :
  length numeric = 13%nat ->
  pf_le (Fin 0) (work_space_z_min cfg) ->
  pf_le (Fin 0) (min_height cfg) ->
  exists done st',
    _is_done cfg (numeric, cam) st = Returned (done, st') /\
    truthy done = true.
Proof.
  intros H Hz Hm.
  destruct (_is_done_run cfg st numeric cam H)
    as (inside & flipped & reached & st1 & Hin & _ & _ & _ & Hrun).
  cbv zeta in Hrun. do 2 eexists. split; [exact Hrun|].
  rewrite !truthy_py_or, !truthy_of_bool.
  list_of_length numeric H.
  cbn [slice firstn skipn] in Hin. rewrite is_inside_workspace_value in Hin.
  injection Hin as Hin. cbn [nth].
  destruct inside; [|cbn [negb orb]; apply orb_true_r].
  rewrite !andb_true_iff in Hin.
  destruct Hin as [_ [Hgt _]].
  unfold too_close_to_ground.
  rewrite (opp_below_min_height _ _ _ Hz Hgt Hm).
  cbn [negb orb]. apply orb_true_r.
Qed.

(** A collision flag that is set ends the episode: within one [step], the
    non-terminal branch of [_compute_reward] is then not taken unless the
    flag changes between the two reads. *)
Lemma collision_ends_the_episode (cfg : Config) (st : State W)
  (numeric : list pyfloat) (cam : Cam) :
  length numeric = 13%nat ->
  truthy (collision_check (world st)) = true ->
  exists done st',
    _is_done cfg (numeric, cam) st = Returned (done, st') /\
    truthy done = true.
Proof.
  intros H Hc.
  destruct (_is_done_run cfg st numeric cam H)
    as (inside & flipped & reached & st1 & _ & _ & _ & _ & Hrun).
  cbv zeta in Hrun. do 2 eexists. split; [exact Hrun|].
  rewrite truthy_py_or, Hc. reflexivity.
Qed.

End Termination.

(** ** Distances *)

Ltac case_result :=
  match goal with
  | |- context [match ?c with Returned _ => _ | Raised _ => _ end] =>
      destruct c
  end.

Lemma pf_mul_self_nonneg (x : pyfloat) : nonneg_or_nan (pf_mul x x).
Proof.
  destruct x; simpl; try exact I.
  apply Rle_0_sqr.
Qed.

Lemma pf_add_nonneg (x y : pyfloat) :
  nonneg_or_nan x -> nonneg_or_nan y -> nonneg_or_nan (pf_add x y).
Proof. destruct x, y; simpl; intros; try easy. lra. Qed.

Lemma vdot_self_nonneg (v : list pyfloat) : nonneg_or_nan (vdot v v).
Proof.
  induction v as [|x v IH]; simpl; [lra|].
  apply pf_add_nonneg; [apply pf_mul_self_nonneg | exact IH].
Qed.

Lemma math_sqrt_nonneg (x : pyfloat) :
  nonneg_or_nan x -> math_sqrt x = Returned (np_sqrt x).
Proof.
  destruct x; simpl; intros H; try easy. Rdecide; reflexivity.
Qed.

Lemma math_sqrt_vdot_self (v : list pyfloat) :
  math_sqrt (vdot v v) = Returned (np_linalg_norm v).
Proof. apply math_sqrt_nonneg, vdot_self_nonneg. Qed.

Lemma get_distance_from_desired_point_value (cfg : Config) (p : Point.t) :
  get_distance_from_desired_point cfg p =
  Returned
    (np_linalg_norm
       [pf_sub (Point.x p) (Point.x (desired_position cfg));
        pf_sub (Point.y p) (Point.y (desired_position cfg));
        pf_sub (Point.z p) (Point.z (desired_position cfg))]).
Proof. reflexivity. Qed.

Lemma np_linalg_norm_3 (a b c : R) :
  np_linalg_norm [Fin a; Fin b; Fin c] = Fin (sqrt (a * a + b * b + c * c)).
Proof.
  unfold np_linalg_norm; simpl.
  pose proof (Rle_0_sqr a). pose proof (Rle_0_sqr b). pose proof (Rle_0_sqr c).
  unfold Rsqr in *. Rdecide. do 2 f_equal. ring.
Qed.

Lemma np_linalg_norm_4 (a b c d : R) :
  np_linalg_norm [Fin a; Fin b; Fin c; Fin d]
  = Fin (sqrt (a * a + b * b + c * c + d * d)).
Proof.
  unfold np_linalg_norm; simpl.
  pose proof (Rle_0_sqr a). pose proof (Rle_0_sqr b). pose proof (Rle_0_sqr c).
  pose proof (Rle_0_sqr d).
  unfold Rsqr in *. Rdecide. do 2 f_equal. ring.
Qed.

Section OrientationDistance.

Context {W Cam : Type} {backend : Backend W Cam}.

(** The absolute distance of two arrays of four numbers. *)
Lemma absolute_difference (cfg : Config) (st : State W)
  (a0 a1 a2 a3 b0 b1 b2 b3 : pyfloat) :
  geo_distance cfg = false ->
  let d_minus :=
    np_linalg_norm
      [pf_sub a0 b0; pf_sub a1 b1; pf_sub a2 b2; pf_sub a3 b3] in
  let d_plus :=
    np_linalg_norm
      [pf_add a0 b0; pf_add a1 b1; pf_add a2 b2; pf_add a3 b3] in
  get_difference_between_orientations cfg [a0; a1; a2; a3] [b0; b1; b2; b3] st =
  Returned (if pf_ltb d_minus d_plus then d_minus else d_plus, st).
Proof.
  intros Hgeo. unfold get_difference_between_orientations. rewrite Hgeo.
  unfold liftR, np_sub, np_add, np_binop, broadcast2, np_dot.
  cbn [length Nat.eqb zip_with rbind].
  rewrite !math_sqrt_vdot_self. cbn [rbind].
  case_if; reflexivity.
Qed.

Lemma get_difference_frame (cfg : Config) (st st1 : State W)
  (a b : list pyfloat) (d : pyfloat) :
  get_difference_between_orientations cfg a b st = Returned (d, st1) ->
  st1 = set_rospy_log (rospy_log st1) st.
Proof.
  unfold get_difference_between_orientations.
  destruct st as [w cr cs pd po mr mp lg].
  destruct (geo_distance cfg).
  - unfold bind, liftR. destruct (np_dot a a) as [n|e]; [|discriminate].
    destruct (pf_gtb n (Fin 0)).
    + case_result; [|discriminate].
      intros H; injection H as _ <-. reflexivity.
    + unfold logerr, rospy_logmsg, modify, ret, set_rospy_log. cbn.
      intros H; injection H as _ <-. reflexivity.
  - unfold liftR.
    case_result; [|discriminate].
    intros H; injection H as _ <-. reflexivity.
Qed.
Lemma absolute_difference_real (cfg : Config) (st : State W)
  (a0 a1 a2 a3 b0 b1 b2 b3 : R) :
  geo_distance cfg = false ->
  get_difference_between_orientations cfg
    [Fin a0; Fin a1; Fin a2; Fin a3] [Fin b0; Fin b1; Fin b2; Fin b3] st
  = Returned (Fin (absolute_distance a0 a1 a2 a3 b0 b1 b2 b3), st).
Proof.
  intros Hgeo. rewrite absolute_difference by exact Hgeo.
  cbv zeta. cbn [pf_sub pf_add pf_opp].
  rewrite !np_linalg_norm_4. unfold absolute_distance, Rmin. cbn [pf_ltb].
  unfold Rminus.
  Rdecide; try reflexivity; do 3 f_equal; lra.
Qed.

Lemma absolute_distance_sym (a0 a1 a2 a3 b0 b1 b2 b3 : R) :
  absolute_distance a0 a1 a2 a3 b0 b1 b2 b3
  = absolute_distance b0 b1 b2 b3 a0 a1 a2 a3.
Proof.
  unfold absolute_distance. f_equal; f_equal; ring.
Qed.

Lemma absolute_distance_self (a0 a1 a2 a3 : R) :
  absolute_distance a0 a1 a2 a3 a0 a1 a2 a3 = 0.
Proof.
  unfold absolute_distance.
  replace ((a0 - a0) * (a0 - a0) + (a1 - a1) * (a1 - a1)
           + (a2 - a2) * (a2 - a2) + (a3 - a3) * (a3 - a3)) with 0 by ring.
  rewrite sqrt_0. apply Rmin_left. apply sqrt_pos.
Qed.

Lemma absolute_distance_opp (a0 a1 a2 a3 : R) :
  absolute_distance a0 a1 a2 a3 (- a0) (- a1) (- a2) (- a3) = 0.
Proof.
  unfold absolute_distance.
  replace ((a0 + - a0) * (a0 + - a0) + (a1 + - a1) * (a1 + - a1)
           + (a2 + - a2) * (a2 + - a2) + (a3 + - a3) * (a3 + - a3))
    with 0 by ring.
  rewrite sqrt_0. apply Rmin_right. apply sqrt_pos.
Qed.

Lemma np_dot_self (a : list pyfloat) : np_dot a a = Returned (vdot a a).
Proof. unfold np_dot. rewrite Nat.eqb_refl. reflexivity. Qed.

Lemma geodesic_guard_false (cfg : Config) (st : State W) (a b : list pyfloat) :
  geo_distance cfg = true ->
  pf_gtb (vdot a a) (Fin 0) = false ->
  get_difference_between_orientations cfg a b st
  = Returned (NaN, set_rospy_log (rospy_log st ++ [error_0_norm]) st).
Proof.
  intros Hgeo Hg. unfold get_difference_between_orientations.
  rewrite Hgeo. unfold bind, liftR. rewrite np_dot_self, Hg. reflexivity.
Qed.

Ltac step_block :=
  lazymatch goal with
  | |- exists e, liftR (rbind ?c _) _ = Raised e =>
      destruct c; cbn [rbind]; [| eexists; reflexivity]
  | |- exists e, liftR (Raised _) _ = Raised e => eexists; reflexivity
  end.

Lemma geodesic_guard_true (cfg : Config) (st : State W) (a b : list pyfloat) :
  geo_distance cfg = true ->
  pf_gtb (vdot a a) (Fin 0) = true ->
  exists e, get_difference_between_orientations cfg a b st = Raised e.
Proof.
  intros Hgeo Hg. unfold get_difference_between_orientations.
  rewrite Hgeo. unfold bind at 1. unfold liftR at 1. rewrite np_dot_self, Hg.
  cbv zeta. unfold np_array_dtype.
  repeat step_block.
Qed.

Lemma geodesic_quaternions (cfg : Config) (st : State W)
  (a0 a1 a2 a3 b0 b1 b2 b3 : pyfloat) :
  geo_distance cfg = true ->
  pf_gtb (vdot [a0; a1; a2; a3] [a0; a1; a2; a3]) (Fin 0) = true ->
  get_difference_between_orientations cfg [a0; a1; a2; a3] [b0; b1; b2; b3] st
  = Raised ValueError.
Proof.
  intros Hgeo Hg. unfold get_difference_between_orientations.
  rewrite Hgeo. unfold bind at 1. unfold liftR at 1. rewrite np_dot_self, Hg.
  cbn [getitem nth_error rbind]. unfold np_array.
  destruct numpy_legacy; [|reflexivity].
  rewrite orb_true_r. cbn [rbind].
  cbn -[pf_div pf_mul vdot]. reflexivity.
Qed.
End OrientationDistance.

(** ** Reward *)

Section Reward.

Context {W Cam : Type} {backend : Backend W Cam}.

Lemma _compute_reward_run (cfg : Config) (st st1 : State W)
  (numeric : list pyfloat) (cam : Cam) (done dist diff : pyfloat) :
  length numeric = 13%nat ->
  get_distance_from_desired_point cfg (obs_position numeric) = Returned dist ->
  get_difference_from_desired_orientation cfg (obs_orientation numeric) st
    = Returned (diff, st1) ->
  let distance_difference :=
    pf_add (pf_sub dist (previous_distance_from_des_point st))
      (pf_mul (Fin 2)
         (pf_sub diff (previous_difference_from_des_orientation st))) in
  let reward :=
    selected_reward cfg numeric done (collision_check (world st))
      distance_difference in
  exists st',
    _compute_reward cfg (numeric, cam) done st = Returned (reward, st') /\
    world st' = world st /\
    cumulated_reward st' = pf_add (cumulated_reward st) reward /\
    cumulated_steps st' = (cumulated_steps st + 1)%Z /\
    previous_distance_from_des_point st' = dist /\
    previous_difference_from_des_orientation st' = diff.
Proof.
  intros H Hdist Hdiff dd reward.
  list_of_length numeric H.
  unfold obs_position, obs_orientation in *. cbn [nth] in *.
  pose proof (get_difference_frame _ _ _ _ _ _ Hdiff) as Hfr.
  unfold _compute_reward.
  unfold bind at 1 2 3 4 5 6 7 8. cbn [fst getitem nth_error liftR].
  unfold bind at 1. unfold liftR at 1.
  cbn [PoseStamped.pose Pose.position Pose.orientation].
  rewrite Hdist.
  unfold bind at 1. rewrite Hdiff.
  destruct st as [w cr cs pd po mr mp lg].
  rewrite Hfr. clear Hfr Hdiff Hdist.
  subst reward dd. unfold selected_reward.
  cbn [world previous_distance_from_des_point
       previous_difference_from_des_orientation cumulated_reward
       cumulated_steps set_rospy_log].
  generalize (rospy_log st1) as lg1; intros lg1.
  destruct (is_in_desired_pose_returns cfg [x; x0; x1; x2; x3; x4; x5]
              (Fin 0.5) eq_refl) as [at_goal Hgoal].
  unfold bind, gets, sensor, modify, ret, liftR, logwarn, logerr, logdebug,
    rospy_logmsg, raise, gets, set_rospy_log,
    set_previous_difference_from_des_orientation,
    set_previous_distance_from_des_point, set_cumulated_reward,
    set_cumulated_steps.
  cbn -[is_in_desired_pose pf_ltb pf_add pf_sub pf_mul pf_opp truthy Z.add].
  rewrite Hgoal.
  cbv [world cumulated_reward cumulated_steps
       previous_distance_from_des_point
       previous_difference_from_des_orientation max_roll max_pitch
       rospy_log].
  destruct (truthy done); cbn [negb].
  - destruct (truthy (collision_check w)).
    + eexists; repeat split.
    + destruct at_goal.
      * eexists; repeat split.
      * rewrite pf_mul_m1. eexists; repeat split.
  - destruct (truthy (collision_check w));
      destruct (pf_ltb _ (Fin 0)); eexists; repeat split.
Qed.

Lemma _compute_reward_raises (cfg : Config) (st : State W)
  (numeric : list pyfloat) (cam : Cam) (done : pyfloat) (e : exn) :
  length numeric = 13%nat ->
  get_difference_from_desired_orientation cfg (obs_orientation numeric) st
    = Raised e ->
  _compute_reward cfg (numeric, cam) done st = Raised e.
Proof.
  intros H Hdiff. list_of_length numeric H.
  unfold obs_orientation in Hdiff. cbn [nth] in Hdiff.
  unfold _compute_reward.
  unfold bind at 1 2 3 4 5 6 7 8. cbn [fst getitem nth_error liftR].
  unfold bind at 1. unfold liftR at 1.
  cbn [PoseStamped.pose Pose.position Pose.orientation].
  rewrite get_distance_from_desired_point_value.
  unfold bind at 1. rewrite Hdiff. reflexivity.
Qed.

End Reward.

(** ** Orientation distance and terminal reward *)

Section OrientationAndReward.

Context {W Cam : Type} {backend : Backend W Cam}.

Lemma vdot_real_quaternion (w x y z : R) :
  vdot [Fin w; Fin x; Fin y; Fin z] [Fin w; Fin x; Fin y; Fin z]
  = Fin (w * w + (x * x + (y * y + (z * z + 0)))).
Proof. reflexivity. Qed.


(** C5, amended.  In geodesic mode, when the first quaternion has norm 0,
    [get_difference_between_orientations] logs an error and returns NaN; it
    raises nothing, and [_compute_reward] on an observation with such an
    orientation returns a reward. *)
Theorem geodesic_returns_nan_on_zero_norm (cfg : Config) (st : State W)
  (w x y z : R) (o_end : list pyfloat) :
  geo_distance cfg = true ->
  w * w + x * x + y * y + z * z = 0 ->
  get_difference_between_orientations cfg [Fin w; Fin x; Fin y; Fin z] o_end st
  = Returned (NaN, set_rospy_log (rospy_log st ++ [error_0_norm]) st)
  /\ forall (numeric : list pyfloat) (cam : Cam) (done : pyfloat),
       length numeric = 13%nat ->
       slice 3 7 numeric = [Fin w; Fin x; Fin y; Fin z] ->
       exists reward st',
         _compute_reward cfg (numeric, cam) done st = Returned (reward, st').
Proof.
  intros Hgeo Hn.
  assert (Hnan : forall o_end st,
    get_difference_between_orientations cfg [Fin w; Fin x; Fin y; Fin z]
      o_end st
    = Returned (NaN, set_rospy_log (rospy_log st ++ [error_0_norm]) st)).
  { intros. apply geodesic_guard_false; [exact Hgeo|].
    rewrite vdot_real_quaternion. unfold pf_gtb. cbn [pf_ltb].
    apply Rltb_false. lra. }
  split; [apply Hnan|].
  intros numeric cam done Hlen Hq.
  destruct (_compute_reward_run cfg st
              (set_rospy_log (rospy_log st ++ [error_0_norm]) st)
              numeric cam done _ NaN Hlen
              (get_distance_from_desired_point_value cfg _)) as [st' [Hr _]].
  - list_of_length numeric Hlen. cbn [slice firstn skipn] in Hq.
    injection Hq as -> -> -> ->.
    unfold get_difference_from_desired_orientation, obs_orientation.
    cbn [nth Quaternion.w Quaternion.x Quaternion.y Quaternion.z].
    apply Hnan.
  - cbv zeta in Hr. eauto.
Qed.

(** C3.  In the terminal case (the value of [done] is true) the reward
    that [_compute_reward] returns is [collision_penalty] if the collision
    flag is set; otherwise [end_episode_points] if the first seven numbers
    of the observation pass the box test with epsilon 0.5, and minus
    [end_episode_points] if not.  With the absolute orientation distance
    the method does return.  The configured [desired_pose_epsilon], which
    the termination test uses, has no part in it. *)
Theorem terminal_reward (cfg : Config) (st : State W) (numeric : list pyfloat)
  (cam : Cam) (done : pyfloat) :
  length numeric = 13%nat ->
  truthy done = true ->
  exists at_goal : bool,
    is_in_desired_pose cfg (slice 0 7 numeric) (Fin 0.5) = Returned at_goal /\
    let expected :=
      if truthy (collision_check (world st)) then collision_penalty cfg
      else if at_goal then end_episode_points cfg
           else pf_opp (end_episode_points cfg) in
    (forall reward st',
       _compute_reward cfg (numeric, cam) done st = Returned (reward, st') ->
       reward = expected) /\
    (geo_distance cfg = false ->
     exists st',
       _compute_reward cfg (numeric, cam) done st = Returned (expected, st'))
    /\
    (forall eps,
       _compute_reward (set_desired_pose_epsilon eps cfg) (numeric, cam) done
         st
       = _compute_reward cfg (numeric, cam) done st).
Proof.
  intros Hlen Hdone.
  assert (Hgoal : exists at_goal,
            is_in_desired_pose cfg (slice 0 7 numeric) (Fin 0.5)
            = Returned at_goal).
  { apply is_in_desired_pose_returns.
    pose proof Hlen as Hl. list_of_length numeric Hl. reflexivity. }
  destruct Hgoal as [at_goal Hgoal]. exists at_goal.
  split; [exact Hgoal|]. intros expected.
  assert (Hsel : forall dd,
            selected_reward cfg numeric done (collision_check (world st)) dd
            = expected).
  { intros dd. unfold selected_reward. rewrite Hdone, Hgoal.
    subst expected. destruct at_goal; reflexivity. }
  split; [|split].
  - intros reward st' Hret.
    destruct (get_difference_from_desired_orientation cfg
                (obs_orientation numeric) st) as [[diff st1]|e] eqn:Hdiff.
    + destruct (_compute_reward_run cfg st st1 numeric cam done _ diff Hlen
                  (get_distance_from_desired_point_value cfg _) Hdiff)
        as [st'' [Hr _]].
      cbv zeta in Hr. rewrite Hsel in Hr. rewrite Hr in Hret.
      injection Hret as <- _. reflexivity.
    + rewrite (_compute_reward_raises cfg st numeric cam done e Hlen Hdiff)
        in Hret. discriminate.
  - intros Hgeo.
    assert (Hdiff : exists diff,
              get_difference_from_desired_orientation cfg
                (obs_orientation numeric) st = Returned (diff, st)).
    { unfold get_difference_from_desired_orientation.
      rewrite absolute_difference by exact Hgeo. eexists; reflexivity. }
    destruct Hdiff as [diff Hdiff].
    destruct (_compute_reward_run cfg st st numeric cam done _ diff Hlen
                (get_distance_from_desired_point_value cfg _) Hdiff)
      as [st'' [Hr _]].
    cbv zeta in Hr. rewrite Hsel in Hr. exists st''. exact Hr.
  - intros eps. reflexivity.
Qed.

(** In the non-terminal case the reward is [closer_to_point_reward] or 0,
    whatever the collision flag. *)
Lemma nonterminal_reward (cfg : Config) (st st' : State W)
  (numeric : list pyfloat) (cam : Cam) (done reward : pyfloat) :
  length numeric = 13%nat ->
  truthy done = false ->
  _compute_reward cfg (numeric, cam) done st = Returned (reward, st') ->
  reward = closer_to_point_reward cfg \/ reward = Fin 0.
Proof.
  intros Hlen Hdone Hret.
  destruct (get_difference_from_desired_orientation cfg
              (obs_orientation numeric) st) as [[diff st1]|e] eqn:Hdiff.
  - destruct (_compute_reward_run cfg st st1 numeric cam done _ diff Hlen
                (get_distance_from_desired_point_value cfg _) Hdiff)
      as [st'' [Hr _]].
    cbv zeta in Hr. rewrite Hr in Hret. injection Hret as <- _.
    unfold selected_reward. rewrite Hdone.
    case_if; [left | right]; reflexivity.
  - rewrite (_compute_reward_raises cfg st numeric cam done e Hlen Hdiff)
      in Hret. discriminate.
Qed.

(** C4, at a failing input.  In geodesic mode the distance from the unit
    quaternion to itself is not 0: the call raises [ValueError].  In
    absolute mode it is 0. *)
Theorem geodesic_distance_to_itself_raises (cfg : Config)
  (st : State W) :
  get_difference_between_orientations (set_geo_distance true cfg)
    unit_quaternion unit_quaternion st = Raised ValueError /\
  get_difference_between_orientations (set_geo_distance false cfg)
    unit_quaternion unit_quaternion st = Returned (Fin 0, st).
Proof.
  split.
  - apply geodesic_quaternions; [reflexivity|].
    rewrite vdot_real_quaternion. unfold pf_gtb. cbn [pf_ltb].
    apply Rltb_true. lra.
  - unfold unit_quaternion.
    rewrite absolute_difference_real by reflexivity.
    rewrite absolute_distance_self. reflexivity.
Qed.

End OrientationAndReward.

(** ** Episodes: class RobotSimEnv *)

Lemma bind_Returned {S A B : Type} (c : M S A) (k : A -> M S B) (s s2 : S)
  (b : B) :
  bind c k s = Returned (b, s2) ->
  exists a s1, c s = Returned (a, s1) /\ k a s1 = Returned (b, s2).
Proof.
  unfold bind. destruct (c s) as [[a s1]|e]; [|discriminate].
  intros H. exists a, s1. split; [reflexivity | exact H].
Qed.




Lemma pf_sum_Fin (l : list R) :
  pf_sum (map Fin l) = Fin (fold_right Rplus 0 l).
Proof.
  induction l as [|x l IH]; simpl; [reflexivity|]. rewrite IH. reflexivity.
Qed.

Lemma call_Returned {Sub A : Type} (c : M Sub A) (e e' : RobotSimEnv.Env Sub)
  (a : A) :
  RobotSimEnv.call c e = Returned (a, e') ->
  c (RobotSimEnv.self e) = Returned (a, RobotSimEnv.self e').
Proof.
  unfold RobotSimEnv.call.
  destruct (c (RobotSimEnv.self e)) as [[a' s]|x]; [|discriminate].
  intros H; injection H as <- <-. reflexivity.
Qed.

Lemma call_bind {Sub A B : Type} (c : M Sub A)
  (k : A -> M (RobotSimEnv.Env Sub) B) (e : RobotSimEnv.Env Sub) (a : A)
  (s : Sub) :
  c (RobotSimEnv.self e) = Returned (a, s) ->
  bind (RobotSimEnv.call c) k e =
  k a {| RobotSimEnv.self := s;
         RobotSimEnv.episode_num := RobotSimEnv.episode_num e;
         RobotSimEnv.cumulated_episode_reward :=
           RobotSimEnv.cumulated_episode_reward e;
         RobotSimEnv.reward_pub := RobotSimEnv.reward_pub e |}.
Proof. intros H. unfold bind, RobotSimEnv.call. rewrite H. reflexivity. Qed.

Section RobotSimEnvFacts.

Import RobotSimEnv.

Context {Sub Action Obs : Type}.
Variable methods : Methods Sub Action Obs.

Lemma same_base_refl (e : Env Sub) : same_base e e.
Proof. repeat split. Qed.

Lemma same_base_trans (e1 e2 e3 : Env Sub) :
  same_base e1 e2 -> same_base e2 e3 -> same_base e1 e3.
Proof.
  unfold same_base. intros (A1 & A2 & A3) (B1 & B2 & B3).
  repeat split; congruence.
Qed.

Lemma call_same_base {A : Type} (c : M Sub A) (e e' : Env Sub) (a : A) :
  call c e = Returned (a, e') -> same_base e e'.
Proof.
  unfold call. destruct (c (self e)) as [[a' s]|x]; [|discriminate].
  intros H; injection H as _ <-. repeat split.
Qed.

Lemma step_accumulates (action : Action) (e e' : Env Sub)
  (out : Obs * pyfloat * pyfloat * Info) :
  step methods action e = Returned (out, e') ->
  episode_num e' = episode_num e /\
  cumulated_episode_reward e' =
    pf_add (cumulated_episode_reward e) (reward_of out) /\
  reward_pub e' = reward_pub e.
Proof.
  unfold step. intros H.
  apply bind_Returned in H. destruct H as (? & e1 & H1 & H).
  apply bind_Returned in H. destruct H as (? & e2 & H2 & H).
  apply bind_Returned in H. destruct H as (? & e3 & H3 & H).
  apply bind_Returned in H. destruct H as (obs & e4 & H4 & H).
  apply bind_Returned in H. destruct H as (done & e5 & H5 & H).
  apply bind_Returned in H. destruct H as (reward & e6 & H6 & H).
  apply call_same_base in H1, H2, H3, H4, H5, H6.
  assert (Hb : same_base e e6)
    by (repeat (eapply same_base_trans; [eassumption|]); apply same_base_refl).
  destruct Hb as (B1 & B2 & B3).
  unfold bind, modify, ret in H. injection H as <- <-.
  unfold reward_of. cbn. rewrite B1, B2, B3. repeat split.
Qed.

Lemma steps_accumulate (actions : list Action) (e e' : Env Sub)
  (outs : list (Obs * pyfloat * pyfloat * Info)) :
  steps methods actions e = Returned (outs, e') ->
  length outs = length actions /\
  episode_num e' = episode_num e /\
  cumulated_episode_reward e' =
    fold_left pf_add (map reward_of outs) (cumulated_episode_reward e) /\
  reward_pub e' = reward_pub e.
Proof.
  revert e e' outs. induction actions as [|a rest IH]; intros e e' outs H.
  - cbn in H. injection H as <- <-. repeat split.
  - cbn [steps] in H.
    apply bind_Returned in H. destruct H as (out & e1 & H1 & H).
    apply bind_Returned in H. destruct H as (outs' & e2 & H2 & H).
    unfold ret in H. injection H as <- <-.
    apply step_accumulates in H1. destruct H1 as (A1 & A2 & A3).
    apply IH in H2. destruct H2 as (B0 & B1 & B2 & B3).
    cbn [length map fold_left]. rewrite B0, B1, B2, B3, A1, A2, A3.
    repeat split.
Qed.

Lemma reset_publishes (e e' : Env Sub) (obs : Obs) :
  reset methods e = Returned (obs, e') ->
  episode_num e' = (episode_num e + 1)%Z /\
  cumulated_episode_reward e' = Fin 0 /\
  reward_pub e' =
    reward_pub e ++
      [{| episode_number := episode_num e;
          episode_reward := cumulated_episode_reward e |}].
Proof.
  unfold reset. intros H.
  apply bind_Returned in H. destruct H as (? & e1 & H1 & H).
  apply bind_Returned in H. destruct H as (? & e2 & H2 & H).
  apply bind_Returned in H. destruct H as (? & e3 & H3 & H).
  apply bind_Returned in H. destruct H as (? & e4 & H4 & H).
  apply bind_Returned in H. destruct H as (? & e5 & H5 & H).
  apply bind_Returned in H. destruct H as (? & e6 & H6 & H).
  apply bind_Returned in H. destruct H as (obs' & e7 & H7 & H).
  apply call_same_base in H1, H2, H3, H4, H5, H7.
  assert (Hb : same_base e e5)
    by (repeat (eapply same_base_trans; [eassumption|]); apply same_base_refl).
  destruct Hb as (B1 & B2 & B3). destruct H7 as (C1 & C2 & C3).
  unfold ret in H. injection H as _ <-.
  unfold _update_episode, _publish_reward_topic, bind, gets, modify in H6.
  injection H6 as _ <-. cbn in C1, C2, C3.
  rewrite C1, C2, C3, B1, B2, B3. repeat split.
Qed.


(** The methods of the base class itself only raise. *)
Lemma abstract_step_raises (action : Action) (e : Env Sub) :
  step (abstract Sub Action Obs) action e = Raised NotImplementedError.
Proof. reflexivity. Qed.

End RobotSimEnvFacts.

(** ** Episodes of the task environment *)

Section Episodes.

Context {W Cam : Type} {backend : Backend W Cam}.

(** Invert a call of a primitive that returned. *)
Ltac invert_returned H :=
  unfold command, request, sensor, loginfo, logdebug, logerr, logwarn,
    rospy_logmsg, when, gets, modify, ret, liftR, _set_init_pose in H;
  repeat match type of H with
    | context [match ?p with (_, _) => _ end] => destruct p
    | context [if ?b then _ else _] => destruct b
    end;
  injection H as ? ?; subst.

Lemma command_counters (f : W -> W) (s s' : State W) (u : unit) :
  command f s = Returned (u, s') ->
  cumulated_steps s' = cumulated_steps s.
Proof. intros H. invert_returned H. reflexivity. Qed.

Lemma _set_init_pose_counters (s s' : State W) (b : bool) :
  _set_init_pose s = Returned (b, s') ->
  cumulated_steps s' = cumulated_steps s.
Proof. intros H. invert_returned H. reflexivity. Qed.

Lemma _pre_reset_counters (cfg : Config) (s s' : State W) (u : unit) :
  _pre_reset cfg s = Returned (u, s') ->
  cumulated_steps s' = cumulated_steps s.
Proof.
  unfold _pre_reset. intros H.
  apply bind_Returned in H. destruct H as (? & ? & H0 & H).
  apply bind_Returned in H. destruct H as (? & ? & H1 & H).
  destruct (use_pose_estimator cfg).
  - apply bind_Returned in H1. destruct H1 as (? & ? & H2 & H1).
    apply bind_Returned in H1. destruct H1 as (? & ? & H3 & H1).
    invert_returned H0. invert_returned H2. invert_returned H3.
    invert_returned H1; invert_returned H; reflexivity.
  - apply bind_Returned in H1. destruct H1 as (? & ? & H3 & H1).
    invert_returned H0. invert_returned H3.
    invert_returned H1; invert_returned H; reflexivity.
Qed.

Lemma _init_env_variables_counters (cfg : Config) (s s' : State W) (u : unit) :
  _init_env_variables cfg s = Returned (u, s') ->
  cumulated_reward s' = Fin 0 /\ cumulated_steps s' = cumulated_steps s.
Proof.
  unfold _init_env_variables. intros H.
  repeat (apply bind_Returned in H; destruct H as (? & ? & ? & H)).
  rewrite get_distance_from_desired_point_value in *.
  match goal with
  | H11 : get_difference_from_desired_orientation _ _ _ = Returned _ |- _ =>
      apply get_difference_frame in H11; rename H11 into Hfr
  end.
  invert_returned H. rewrite Hfr. clear Hfr.
  repeat match goal with
         | H' : _ = Returned _ |- _ => invert_returned H'
         end; split; reflexivity.
Qed.

Lemma _get_obs_counters (s s' : State W) (obs : Observation) :
  _get_obs s = Returned (obs, s') ->
  cumulated_reward s' = cumulated_reward s /\
  cumulated_steps s' = cumulated_steps s.
Proof.
  unfold _get_obs, bind, logdebug, rospy_logmsg, sensor, gets, modify, ret.
  intros H; injection H as _ <-. split; reflexivity.
Qed.

Lemma _pre_reset_returns (cfg : Config) (s : State W) :
  exists s', _pre_reset cfg s = Returned (tt, s').
Proof.
  unfold _pre_reset, when, command, request, sensor, loginfo, rospy_logmsg,
    bind, gets, modify, ret.
  destruct (use_pose_estimator cfg);
    destruct (_set_arming_request false _) as [[|] w]; eexists; reflexivity.
Qed.

Lemma uav_reset_counters (cfg : Config)
  (e e' : RobotSimEnv.Env (State W)) (obs : Observation) :
  RobotSimEnv.reset (uav_methods cfg) e = Returned (obs, e') ->
  cumulated_reward (RobotSimEnv.self e') = Fin 0 /\
  cumulated_steps (RobotSimEnv.self e')
    = cumulated_steps (RobotSimEnv.self e).
Proof.
  unfold RobotSimEnv.reset. intros H.
  apply bind_Returned in H. destruct H as (? & e1 & H1 & H).
  apply bind_Returned in H. destruct H as (? & e2 & H2 & H).
  apply bind_Returned in H. destruct H as (? & e3 & H3 & H).
  apply bind_Returned in H. destruct H as (? & e4 & H4 & H).
  apply bind_Returned in H. destruct H as (? & e5 & H5 & H).
  apply bind_Returned in H. destruct H as (? & e6 & H6 & H).
  apply bind_Returned in H. destruct H as (obs' & e7 & H7 & H).
  unfold ret in H. injection H as _ <-.
  apply call_Returned in H1, H2, H3, H4, H5, H7.
  cbn [uav_methods RobotSimEnv._pre_reset RobotSimEnv.sim_handler_pause
       RobotSimEnv.sim_handler_reset RobotSimEnv._set_init_pose
       RobotSimEnv._init_env_variables RobotSimEnv._get_obs] in *.
  unfold RobotSimEnv._update_episode, RobotSimEnv._publish_reward_topic,
    bind, gets, modify in H6.
  injection H6 as _ <-. cbn [RobotSimEnv.self] in H7.
  apply _pre_reset_counters in H1.
  apply _init_env_variables_counters in H5. destruct H5 as (R5 & S5).
  apply _get_obs_counters in H7. destruct H7 as (R7 & S7).
  apply command_counters in H2, H3. apply _set_init_pose_counters in H4.
  rewrite R7, S7, R5, S5. split; [reflexivity|]. congruence.
Qed.

Lemma drone_has_flipped_counters (o : list pyfloat) (s s' : State W)
  (b : bool) :
  drone_has_flipped o s = Returned (b, s') ->
  cumulated_steps s' = cumulated_steps s.
Proof.
  unfold drone_has_flipped. intros H.
  do 4 (apply bind_Returned in H; destruct H as (? & ? & ? & H)).
  destruct (euler_from_quaternion _) as [[r p] yw].
  do 6 (apply bind_Returned in H; destruct H as (? & ? & ? & H)).
  repeat match goal with
         | H' : liftR ?r _ = Returned _ |- _ =>
             unfold liftR in H'; destruct r; [|discriminate H'];
             injection H' as ? ?; subst
         end.
  repeat match goal with
         | H' : _ = Returned _ |- _ => invert_returned H'
         end; reflexivity.
Qed.

Lemma _is_done_counters (cfg : Config) (obs : Observation) (s s' : State W)
  (d : pyfloat) :
  _is_done cfg obs s = Returned (d, s') ->
  cumulated_steps s' = cumulated_steps s.
Proof.
  unfold _is_done. intros H.
  repeat (apply bind_Returned in H; destruct H as (? & ? & ? & H)).
  match goal with
  | Hf : drone_has_flipped _ _ = Returned _ |- _ =>
      apply drone_has_flipped_counters in Hf; rename Hf into Hfl
  end.
  repeat match goal with
         | H' : liftR ?r _ = Returned _ |- _ =>
             unfold liftR in H'; destruct r; [|discriminate H'];
             injection H' as ? ?; subst
         end.
  invert_returned H.
  repeat match goal with
         | H' : _ = Returned _ |- _ => invert_returned H'
         end; cbn; exact Hfl.
Qed.

Lemma _get_obs_returns (s : State W) :
  exists numeric cam s',
    _get_obs s = Returned ((numeric, cam), s') /\
    length numeric = 13%nat /\
    cumulated_steps s' = cumulated_steps s.
Proof.
  unfold _get_obs, bind, logdebug, rospy_logmsg, sensor, gets, modify, ret.
  do 3 eexists. split; [reflexivity|]. split; reflexivity.
Qed.

Lemma _init_env_variables_returns (cfg : Config) (s : State W) :
  geo_distance cfg = false ->
  exists s', _init_env_variables cfg s = Returned (tt, s').
Proof.
  intros Hgeo. unfold _init_env_variables, when, command, request, sensor,
    loginfo, rospy_logmsg, bind, gets, modify, ret, liftR.
  destruct (use_pose_estimator cfg);
    destruct (_set_arming_request true _) as [[|] w1];
    destruct (_set_takeoff_request (Fin 1) _) as [[|] w2];
    rewrite get_distance_from_desired_point_value;
    unfold get_difference_from_desired_orientation;
    rewrite absolute_difference by exact Hgeo;
    eexists; reflexivity.
Qed.

Lemma uav_reset_returns (cfg : Config) (e : RobotSimEnv.Env (State W)) :
  geo_distance cfg = false ->
  exists obs e', RobotSimEnv.reset (uav_methods cfg) e = Returned (obs, e').
Proof.
  intros Hgeo. unfold RobotSimEnv.reset.
  cbn [uav_methods RobotSimEnv._pre_reset RobotSimEnv.sim_handler_pause
       RobotSimEnv.sim_handler_reset RobotSimEnv._set_init_pose
       RobotSimEnv._init_env_variables RobotSimEnv._get_obs].
  destruct (_pre_reset_returns cfg (RobotSimEnv.self e)) as [s1 H1].
  destruct (_init_env_variables_returns cfg
              (set_world
                 (sim_reset (world (set_world (sim_pause (world s1)) s1)))
                 (set_world (sim_pause (world s1)) s1)) Hgeo) as [s5 H5].
  destruct (_get_obs_returns s5) as (numeric & cam & s7 & H7 & _).
  do 2 eexists.
  rewrite (call_bind (_pre_reset cfg) _ e _ _ H1).
  do 3 (erewrite call_bind by reflexivity). cbn [RobotSimEnv.self].
  erewrite call_bind by exact H5.
  unfold RobotSimEnv._update_episode, RobotSimEnv._publish_reward_topic.
  unfold bind at 1 2 3 4 5. unfold gets, modify.
  erewrite call_bind by exact H7.
  reflexivity.
Qed.

Lemma uav_step_returns (cfg : Config) (e : RobotSimEnv.Env (State W))
  (a0 a1 a2 a3 : pyfloat) :
  geo_distance cfg = false ->
  exists out e',
    RobotSimEnv.step (uav_methods cfg) [a0; a1; a2; a3] e
      = Returned (out, e') /\
    cumulated_steps (RobotSimEnv.self e')
      = (cumulated_steps (RobotSimEnv.self e) + 1)%Z.
Proof.
  intros Hgeo. unfold RobotSimEnv.step.
  cbn [uav_methods RobotSimEnv.sim_handler_unpause
       RobotSimEnv.sim_handler_pause RobotSimEnv._set_action
       RobotSimEnv._get_obs RobotSimEnv._is_done
       RobotSimEnv._compute_reward].
  set (s2 := set_rospy_log
                (rospy_log (RobotSimEnv.self e) ++
                   [{| log_level := LogDebug;
                       log_text := "END Set Action ==>";
                       log_values := [a0; a1; a2; a3] |}])
                (set_world
                   (pub_cmd_vel
                      {| TwistStamped.twist :=
                           {| Twist.linear :=
                                {| Vector3.x := a0; Vector3.y := a1;
                                   Vector3.z := a2 |};
                              Twist.angular :=
                                {| Vector3.x := Fin 0; Vector3.y := Fin 0;
                                   Vector3.z := a3 |} |} |}
                      (sim_unpause (world (RobotSimEnv.self e))))
                   (RobotSimEnv.self e))).
  destruct (_get_obs_returns (set_world (sim_pause (world s2)) s2))
    as (numeric & cam & s4 & H4 & Hlen & S4).
  destruct (_is_done_run cfg s4 numeric cam Hlen)
    as (inside & flipped & reached & st1 & _ & _ & _ & _ & Hrun).
  cbv zeta in Hrun. pose proof (_is_done_counters _ _ _ _ _ Hrun) as S5.
  match type of Hrun with
  | _ = Returned (?d, ?s) => set (done := d) in *; set (s5 := s) in *
  end.
  clearbody s5 done.
  assert (Hdiff : exists diff,
            get_difference_from_desired_orientation cfg
              (obs_orientation numeric) s5 = Returned (diff, s5)).
  { unfold get_difference_from_desired_orientation.
    rewrite absolute_difference by exact Hgeo. eexists; reflexivity. }
  destruct Hdiff as [diff Hdiff].
  destruct (_compute_reward_run cfg s5 s5 numeric cam done _ diff Hlen
              (get_distance_from_desired_point_value cfg _) Hdiff)
    as (s6 & Hr & _ & _ & S6 & _).
  cbv zeta in Hr.
  do 2 eexists.
  erewrite call_bind by reflexivity.
  erewrite (call_bind (_set_action [a0; a1; a2; a3]) _ _ tt s2)
    by reflexivity.
  erewrite call_bind by reflexivity. cbn [RobotSimEnv.self].
  erewrite call_bind by exact H4. cbn [RobotSimEnv.self].
  erewrite call_bind by exact Hrun. cbn [RobotSimEnv.self].
  erewrite call_bind by exact Hr.
  unfold bind, modify, ret. split; [reflexivity|].
  cbn [RobotSimEnv.self]. rewrite S6, S5, S4. reflexivity.
Qed.

(** C7, amended.  After every reset of the task environment that returns,
    [cumulated_reward] is 0, and [cumulated_steps] has the value it had
    before the reset: no method sets it back to 0. *)
Theorem reset_zeroes_reward_and_keeps_steps (cfg : Config)
  (e e' : RobotSimEnv.Env (State W)) (obs : Observation) :
  RobotSimEnv.reset (uav_methods cfg) e = Returned (obs, e') ->
  cumulated_reward (RobotSimEnv.self e') = Fin 0 /\
  cumulated_steps (RobotSimEnv.self e')
    = cumulated_steps (RobotSimEnv.self e).
Proof. apply uav_reset_counters. Qed.

End Episodes.

(** ** The absolute orientation distance is a distance up to sign *)

Lemma absolute_mode_properties {W Cam : Type} {backend : Backend W Cam}
  (cfg : Config) (st : State W) (a0 a1 a2 a3 b0 b1 b2 b3 : R) :
  geo_distance cfg = false ->
  let a := [Fin a0; Fin a1; Fin a2; Fin a3] in
  let b := [Fin b0; Fin b1; Fin b2; Fin b3] in
  let minus_a := [Fin (- a0); Fin (- a1); Fin (- a2); Fin (- a3)] in
  get_difference_between_orientations cfg a b st
    = get_difference_between_orientations cfg b a st /\
  get_difference_between_orientations cfg a a st = Returned (Fin 0, st) /\
  get_difference_between_orientations cfg a minus_a st
    = Returned (Fin 0, st).
Proof.
  intros Hgeo. cbv zeta.
  rewrite !absolute_difference_real by exact Hgeo.
  rewrite absolute_distance_self, absolute_distance_opp.
  rewrite (absolute_distance_sym a0 a1 a2 a3 b0 b1 b2 b3).
  repeat split.
Qed.

(** ** The concrete instance: evaluations *)

Section Concrete.

#[local] Existing Instance hover_backend.

Lemma at_goal_distance :
  get_distance_from_desired_point example_cfg
    (obs_position at_goal_numeric) = Returned (Fin 0).
Proof.
  rewrite get_distance_from_desired_point_value.
  cbn [obs_position at_goal_numeric example_obs nth Point.x Point.y Point.z
       desired_position example_cfg desired_pose make_pose PoseStamped.pose
       Pose.position pf_sub pf_add pf_opp].
  rewrite np_linalg_norm_3. do 2 f_equal.
  replace (_ + _) with 0 by ring. apply sqrt_0.
Qed.

Lemma at_goal_difference (st : State hover_world) :
  get_difference_from_desired_orientation example_cfg
    (obs_orientation at_goal_numeric) st = Returned (Fin 0, st).
Proof.
  unfold get_difference_from_desired_orientation.
  cbn [obs_orientation at_goal_numeric example_obs nth Quaternion.w
       Quaternion.x Quaternion.y Quaternion.z desired_orientation
       example_cfg desired_pose make_pose PoseStamped.pose Pose.orientation].
  rewrite absolute_difference_real by reflexivity.
  rewrite absolute_distance_self. reflexivity.
Qed.

(** C1, at a failing input.  The robot hovers at the goal with the
    collision flag set to 1 and the episode is not done.  Whether the
    combined distance decreased (previous distance 1) or not (previous
    distance 0), the reward returned is [closer_to_point_reward] or 0: the
    collision value assigned first is overwritten. *)
Theorem collision_reward_is_overwritten :
  let approaching := example_state (at_goal_world (Fin 1)) 1 0 in
  let resting := example_state (at_goal_world (Fin 1)) 0 0 in
  truthy (collision_check (world approaching)) = true /\
  (exists st',
     _compute_reward example_cfg (at_goal_numeric, tt) (of_bool false)
       approaching
     = Returned (closer_to_point_reward example_cfg, st')) /\
  (exists st',
     _compute_reward example_cfg (at_goal_numeric, tt) (of_bool false) resting
     = Returned (Fin 0, st')) /\
  closer_to_point_reward example_cfg <> collision_check (world approaching) /\
  Fin 0 <> collision_check (world resting).
Proof.
  cbv zeta. split; [|split; [|split; [|split]]].
  - unfold truthy; cbn. Rdecide; try reflexivity.
  - destruct (_compute_reward_run example_cfg _ _ at_goal_numeric tt
                (of_bool false) (Fin 0) (Fin 0) eq_refl at_goal_distance
                (at_goal_difference
                   (example_state (at_goal_world (Fin 1)) 1 0)))
      as (st' & Hr & _).
    exists st'. cbv zeta in Hr. rewrite Hr. do 2 f_equal.
    unfold selected_reward. rewrite truthy_of_bool.
    cbn [example_state previous_distance_from_des_point
         previous_difference_from_des_orientation pf_sub pf_add pf_opp
         pf_mul pf_ltb].
    Rdecide; try reflexivity.
  - destruct (_compute_reward_run example_cfg _ _ at_goal_numeric tt
                (of_bool false) (Fin 0) (Fin 0) eq_refl at_goal_distance
                (at_goal_difference
                   (example_state (at_goal_world (Fin 1)) 0 0)))
      as (st' & Hr & _).
    exists st'. cbv zeta in Hr. rewrite Hr. do 2 f_equal.
    unfold selected_reward. rewrite truthy_of_bool.
    cbn [example_state previous_distance_from_des_point
         previous_difference_from_des_orientation pf_sub pf_add pf_opp
         pf_mul pf_ltb].
    Rdecide; try reflexivity.
  - cbn. intros H. injection H as H. lra.
  - cbn. intros H. injection H as H. lra.
Qed.

(** C5, counterexample.  In geodesic mode, the quaternion of norm 0 as
    [ostart] makes the method return NaN after logging one line; no
    exception is raised. *)
Lemma zero_norm_is_not_raised :
  let st := example_state (at_goal_world (Fin 0)) 0 0 in
  let r :=
    get_difference_between_orientations (set_geo_distance true example_cfg)
      zero_quaternion unit_quaternion st in
  r = Returned (NaN, set_rospy_log [error_0_norm] st) /\
  ~ (exists e, r = Raised e).
Proof.
  cbv zeta.
  assert (H : get_difference_between_orientations
                (set_geo_distance true example_cfg)
                zero_quaternion unit_quaternion
                (example_state (at_goal_world (Fin 0)) 0 0)
              = Returned (NaN, set_rospy_log [error_0_norm]
                                 (example_state (at_goal_world (Fin 0)) 0 0))).
  { rewrite geodesic_guard_false; [reflexivity | reflexivity |].
    unfold zero_quaternion. rewrite vdot_real_quaternion.
    unfold pf_gtb. cbn [pf_ltb]. apply Rltb_false. lra. }
  split; [exact H|]. intros [e He]. rewrite H in He. discriminate.
Qed.

(** C7, counterexample.  From a new environment with [cumulated_steps]
    0: reset, one step, reset.  After the second reset [cumulated_steps]
    is 1. *)
Lemma cumulated_steps_survives_reset :
  let m := uav_methods example_cfg in
  let e := RobotSimEnv.init (example_state (at_goal_world (Fin 0)) 0 0) in
  exists obs0 e0 out e1 obs2 e2,
    RobotSimEnv.reset m e = Returned (obs0, e0) /\
    RobotSimEnv.step m [Fin 0; Fin 0; Fin 0; Fin 0] e0 = Returned (out, e1) /\
    RobotSimEnv.reset m e1 = Returned (obs2, e2) /\
    cumulated_steps (RobotSimEnv.self e) = 0%Z /\
    cumulated_steps (RobotSimEnv.self e2) = 1%Z /\
    cumulated_steps (RobotSimEnv.self e2) <> 0%Z.
Proof.
  cbv zeta.
  destruct (uav_reset_returns example_cfg
              (RobotSimEnv.init (example_state (at_goal_world (Fin 0)) 0 0))
              eq_refl) as (obs0 & e0 & H0).
  destruct (uav_step_returns example_cfg e0 (Fin 0) (Fin 0) (Fin 0) (Fin 0)
              eq_refl) as (out & e1 & H1 & S1).
  destruct (uav_reset_returns example_cfg e1 eq_refl) as (obs2 & e2 & H2).
  exists obs0, e0, out, e1, obs2, e2.
  pose proof (uav_reset_counters _ _ _ _ H0) as [_ C0].
  pose proof (uav_reset_counters _ _ _ _ H2) as [_ C2].
  assert (E : cumulated_steps (RobotSimEnv.self e2) = 1%Z).
  { rewrite C2, S1, C0. reflexivity. }
  repeat split; try assumption. rewrite E. discriminate.
Qed.

Lemma _is_done_flags_witness :
  exists done st',
    _is_done example_cfg (at_goal_numeric, tt)
      (example_state (at_goal_world (Fin 0)) 0 0) = Returned (done, st').
Proof.
  destruct (_is_done_flags example_cfg
              (example_state (at_goal_world (Fin 0)) 0 0) at_goal_numeric tt
              eq_refl)
    as (inside & flipped & reached & st1 & done & st' & _ & _ & _ & H & _).
  exists done, st'. exact H.
Defined.

Lemma _is_done_true_when_bounds_nonnegative_witness :
  exists done st',
    _is_done
      (set_work_space (Fin 0) (Fin 10) (Fin 0) (Fin 10) (Fin 0) (Fin 5)
         example_cfg)
      (at_goal_numeric, tt) (example_state (at_goal_world (Fin 0)) 0 0)
    = Returned (done, st') /\
    truthy done = true.
Proof.
  apply (_is_done_true_when_bounds_nonnegative
           (set_work_space (Fin 0) (Fin 10) (Fin 0) (Fin 10) (Fin 0) (Fin 5)
              example_cfg)
           (example_state (at_goal_world (Fin 0)) 0 0) at_goal_numeric tt).
  - reflexivity.
  - apply Rleb_true. lra.
  - apply Rleb_true. lra.
Defined.

Lemma terminal_reward_witness :
  let st := example_state (at_goal_world (Fin 0)) 0 0 in
  exists (at_goal : bool) (st' : State hover_world),
    _compute_reward example_cfg (at_goal_numeric, tt) (of_bool true) st
    = Returned
        (if truthy (collision_check (world st))
         then collision_penalty example_cfg
         else if at_goal then end_episode_points example_cfg
              else pf_opp (end_episode_points example_cfg), st').
Proof.
  cbv zeta.
  destruct (terminal_reward example_cfg
              (example_state (at_goal_world (Fin 0)) 0 0)
              at_goal_numeric tt (of_bool true) eq_refl
              (truthy_of_bool true))
    as (at_goal & _ & _ & Hreturns & _).
  destruct (Hreturns eq_refl) as [st' H].
  exists at_goal, st'. exact H.
Defined.


Lemma geodesic_returns_nan_on_zero_norm_witness :
  let st := example_state (at_goal_world (Fin 0)) 0 0 in
  get_difference_between_orientations (set_geo_distance true example_cfg)
    zero_quaternion unit_quaternion st
  = Returned (NaN, set_rospy_log (rospy_log st ++ [error_0_norm]) st).
Proof.
  apply (geodesic_returns_nan_on_zero_norm
           (set_geo_distance true example_cfg)
           (example_state (at_goal_world (Fin 0)) 0 0) 0 0 0 0
           unit_quaternion).
  - reflexivity.
  - lra.
Defined.

Lemma reset_zeroes_reward_and_keeps_steps_witness :
  let e := RobotSimEnv.init (example_state (at_goal_world (Fin 0)) 0 0) in
  exists obs e',
    RobotSimEnv.reset (uav_methods example_cfg) e = Returned (obs, e') /\
    cumulated_reward (RobotSimEnv.self e') = Fin 0 /\
    cumulated_steps (RobotSimEnv.self e')
      = cumulated_steps (RobotSimEnv.self e).
Proof.
  cbv zeta.
  destruct (uav_reset_returns example_cfg
              (RobotSimEnv.init (example_state (at_goal_world (Fin 0)) 0 0))
              eq_refl) as (obs & e' & H).
  exists obs, e'. split; [exact H|].
  exact (reset_zeroes_reward_and_keeps_steps example_cfg _ e' obs H).
Defined.


End Concrete.

(** * Further properties of the code *)

(** ** The goal test *)

Lemma is_in_desired_pose_value (cfg : Config)
  (c0 c1 c2 c3 c4 c5 c6 eps : pyfloat) :
  is_in_desired_pose cfg [c0; c1; c2; c3; c4; c5; c6] eps =
  Returned
    (np_all (map (fun cd => pf_leb (fst cd) (pf_add (snd cd) eps))
               (combine [c0; c1; c2; c3; c4; c5; c6] (desired_pose_array cfg)))
     && np_all (map (fun cd => pf_gtb (fst cd) (pf_sub (snd cd) eps))
                  (combine [c0; c1; c2; c3; c4; c5; c6]
                     (desired_pose_array cfg)))).
Proof.
  unfold is_in_desired_pose, np_le, np_gt, np_binop, broadcast2,
    desired_pose_array.
  cbn -[pf_leb pf_gtb pf_add pf_sub].
  case_if; reflexivity.
Qed.

Lemma is_in_desired_pose_iff (cfg : Config) (pose : list pyfloat)
  (eps : pyfloat) :
  length pose = 7%nat ->
  (exists b, is_in_desired_pose cfg pose eps = Returned b) /\
  (is_in_desired_pose cfg pose eps = Returned true <->
   Forall2 (in_band eps) pose (desired_pose_array cfg)).
Proof.
  intros H. list_of_length pose H.
  rewrite is_in_desired_pose_value. split; [eexists; reflexivity|].
  unfold desired_pose_array, in_band, pf_lt, pf_le, pf_gtb.
  cbn -[pf_leb pf_ltb pf_add pf_sub].
  split.
  - intros E. injection E as E. rewrite !andb_true_iff in E.
    repeat constructor; tauto.
  - intros F.
    repeat match goal with
           | F : Forall2 _ (_ :: _) (_ :: _) |- _ =>
               inversion F; clear F; subst
           end.
    repeat match goal with
           | H : _ /\ _ |- _ => destruct H as [? ?]
           end.
    f_equal. rewrite !andb_true_iff. tauto.
Qed.


Lemma in_band_wider (eps eps' d : R) (c : pyfloat) :
  eps <= eps' -> in_band (Fin eps) c (Fin d) -> in_band (Fin eps') c (Fin d).
Proof.
  unfold in_band, pf_lt, pf_le. intros Hle [H1 H2].
  destruct c; simpl in *; try discriminate; try (split; reflexivity).
  apply Rltb_true in H1. apply Rleb_true in H2.
  split; [apply Rltb_true | apply Rleb_true]; lra.
Qed.

Lemma is_in_desired_pose_wider (cfg : Config) (pose : list pyfloat)
  (x y z qw qx qy qz eps eps' : R) :
  desired_pose cfg = make_pose x y z qw qx qy qz ->
  length pose = 7%nat ->
  eps <= eps' ->
  is_in_desired_pose cfg pose (Fin eps) = Returned true ->
  is_in_desired_pose cfg pose (Fin eps') = Returned true.
Proof.
  intros Hd Hlen Hle H.
  apply (is_in_desired_pose_iff cfg pose (Fin eps') Hlen).
  apply (is_in_desired_pose_iff cfg pose (Fin eps) Hlen) in H.
  unfold desired_pose_array, desired_position, desired_orientation in *.
  rewrite Hd in *. cbn in *.
  list_of_length pose Hlen.
  repeat match goal with
         | F : Forall2 _ (_ :: _) (_ :: _) |- _ =>
             inversion F; clear F; subst
         end.
  repeat constructor; eapply in_band_wider; eassumption.
Qed.

Section GoalTest.

Context {W Cam : Type} {backend : Backend W Cam}.

(** X2.  The goal test of [_is_done] uses the configured
    [desired_pose_epsilon], the one of [_compute_reward] the constant 0.5.
    When the configured value is at most 0.5 the two agree at the goal: if
    the robot is inside the configured box, the episode is done and nothing
    collided, a reward that is returned is [end_episode_points]. *)
Theorem goal_reached_is_rewarded (cfg : Config) (st st' : State W)
  (numeric : list pyfloat) (cam : Cam) (done reward : pyfloat)
  (x y z qw qx qy qz eps : R) :
  length numeric = 13%nat ->
  desired_pose cfg = make_pose x y z qw qx qy qz ->
  desired_pose_epsilon cfg = Fin eps ->
  eps <= 0.5 ->
  is_in_desired_pose cfg (slice 0 7 numeric) (desired_pose_epsilon cfg)
    = Returned true ->
  truthy done = true ->
  truthy (collision_check (world st)) = false ->
  _compute_reward cfg (numeric, cam) done st = Returned (reward, st') ->
  reward = end_episode_points cfg.
Proof.
  intros Hlen Hd He Hle Hgoal Hdone Hc Hret.
  assert (Hwide : is_in_desired_pose cfg (slice 0 7 numeric) (Fin 0.5)
                  = Returned true).
  { rewrite He in Hgoal.
    apply (is_in_desired_pose_wider cfg _ x y z qw qx qy qz eps 0.5 Hd);
      try assumption.
    pose proof Hlen as Hl. list_of_length numeric Hl. reflexivity. }
  destruct (get_difference_from_desired_orientation cfg
              (obs_orientation numeric) st) as [[diff st1]|e] eqn:Hdiff.
  - destruct (_compute_reward_run cfg st st1 numeric cam done _ diff Hlen
                (get_distance_from_desired_point_value cfg _) Hdiff)
      as [st'' [Hr _]].
    cbv zeta in Hr. rewrite Hr in Hret. injection Hret as <- _.
    unfold selected_reward. rewrite Hdone, Hc, Hwide. reflexivity.
  - rewrite (_compute_reward_raises cfg st numeric cam done e Hlen Hdiff)
      in Hret. discriminate.
Qed.
End GoalTest.









Section Metrics.

Context {W Cam : Type} {backend : Backend W Cam}.



Lemma drone_has_flipped_value (o0 o1 o2 o3 : pyfloat) (st : State W) :
  let '(roll, pitch, _) := euler_from_quaternion [o1; o2; o3; o0] in
  let r := rospy_get_param "/mavros_gym/max_roll" (world st) in
  let p := rospy_get_param "/mavros_gym/max_pitch" (world st) in
  exists flipped : bool,
    drone_has_flipped [o0; o1; o2; o3] st
    = Returned (flipped, set_max_pitch p (set_max_roll r st)) /\
    (flipped = false <->
     (pf_lt (pf_opp r) roll /\ pf_le roll r) /\
     (pf_lt (pf_opp p) pitch /\ pf_le pitch p)).
Proof.
  destruct (euler_from_quaternion [o1; o2; o3; o0]) as [[roll pitch] yaw] eqn:E.
  cbv zeta.
  unfold drone_has_flipped, bind, liftR, sensor, gets, modify.
  cbn [getitem nth_error]. rewrite E.
  cbn [max_roll max_pitch set_max_roll set_max_pitch world].
  rewrite !pf_mul_m1. unfold pf_lt, pf_le, pf_gtb.
  destruct (pf_ltb _ roll) eqn:R1; destruct (pf_leb roll _) eqn:R2;
    destruct (pf_ltb _ pitch) eqn:P1; destruct (pf_leb pitch _) eqn:P2;
    cbn [andb]; eexists; (split; [reflexivity|]);
    split; intros; try discriminate; try tauto;
    repeat match goal with H : _ /\ _ |- _ => destruct H end;
    discriminate.
Qed.
(** X5.  [drone_has_flipped] on an orientation (w, x, y, z) reads the two
    limits from the parameter server and stores them in [max_roll] and
    [max_pitch], asks for the Euler angles of the quaternion reordered to
    (x, y, z, w), and reports no flip exactly when roll is in
    (-max_roll, max_roll] and pitch is in (-max_pitch, max_pitch]. *)
Theorem drone_has_flipped_limits (o0 o1 o2 o3 : pyfloat) (st : State W) :
  let '(roll, pitch, _) := euler_from_quaternion [o1; o2; o3; o0] in
  let r := rospy_get_param "/mavros_gym/max_roll" (world st) in
  let p := rospy_get_param "/mavros_gym/max_pitch" (world st) in
  exists flipped : bool,
    drone_has_flipped [o0; o1; o2; o3] st
    = Returned (flipped, set_max_pitch p (set_max_roll r st)) /\
    (flipped = false <->
     (pf_lt (pf_opp r) roll /\ pf_le roll r) /\
     (pf_lt (pf_opp p) pitch /\ pf_le pitch p)).
Proof. apply drone_has_flipped_value. Qed.

End Metrics.

Section ShortObservations.

Context {W Cam : Type} {backend : Backend W Cam}.

(** X6.  [_is_done] reads the first seven numbers of the observation
    only: it returns on every observation with at least seven numbers, and
    raises IndexError on every shorter one. *)
Theorem _is_done_needs_seven_numbers (cfg : Config) (st : State W)
  (numeric : list pyfloat) (cam : Cam) :
  ((7 <= length numeric)%nat ->
   exists done st', _is_done cfg (numeric, cam) st = Returned (done, st')) /\
  ((length numeric < 7)%nat ->
   _is_done cfg (numeric, cam) st = Raised IndexError).
Proof.
  split.
  - intros H.
    do 7 (destruct numeric as [|? numeric]; [simpl in H; lia|]).
    unfold _is_done. cbn [fst slice firstn skipn].
    rewrite is_inside_workspace_value.
    destruct (is_in_desired_pose_returns cfg [p; p0; p1; p2; p3; p4; p5]
                (desired_pose_epsilon cfg) eq_refl) as [reached Ere].
    destruct (drone_has_flipped_returns [p2; p3; p4; p5] st eq_refl)
      as (flipped & st1 & Hfl & _ & _).
    unfold bind, sensor, gets, liftR. cbn [getitem nth_error].
    rewrite Hfl, Ere.
    unfold when, logerr, rospy_logmsg, modify, ret.
    repeat case_if; do 2 eexists; reflexivity.
  - intros H.
    unfold _is_done, is_inside_workspace, drone_has_flipped.
    do 7 (destruct numeric as [|? numeric];
          [ unfold bind, sensor, gets, liftR;
            cbn [fst slice firstn skipn getitem nth_error rbind];
            repeat case_if; reflexivity |]).
    simpl in H. lia.
Qed.
End ShortObservations.

Lemma no_change_is_not_a_decrease (d f : pyfloat) :
  pf_ltb (pf_add (pf_sub d d) (pf_mul (Fin 2) (pf_sub f f))) (Fin 0) = false.
Proof.
  destruct d, f; simpl; unfold pf_is_zero, pf_is_neg; simpl;
    Rdecide; reflexivity.
Qed.

Lemma nan_change_is_not_a_decrease (a b c : pyfloat) :
  pf_ltb (pf_add a (pf_mul (Fin 2) (pf_sub NaN c))) b = false.
Proof. destruct a; reflexivity. Qed.

Section RewardShaping.

Context {W Cam : Type} {backend : Backend W Cam}.

(** The value of the orientation distance does not depend on the
    attributes. *)
Lemma get_difference_value_independent (cfg : Config) (a b : list pyfloat)
  (s s' s1 s1' : State W) (d d' : pyfloat) :
  get_difference_between_orientations cfg a b s = Returned (d, s1) ->
  get_difference_between_orientations cfg a b s' = Returned (d', s1') ->
  d = d'.
Proof.
  unfold get_difference_between_orientations.
  destruct (geo_distance cfg).
  - unfold bind, liftR. destruct (np_dot a a) as [n|e]; [|discriminate].
    destruct (pf_gtb n (Fin 0)).
    + case_result; [|discriminate].
      intros H H'. injection H as <- _. injection H' as <- _. reflexivity.
    + unfold logerr, rospy_logmsg, modify, ret.
      intros H H'. injection H as <- _. injection H' as <- _. reflexivity.
  - unfold liftR. case_result; [|discriminate].
    intros H H'. injection H as <- _. injection H' as <- _. reflexivity.
Qed.

Lemma geodesic_value_is_nan (cfg : Config) (a b : list pyfloat)
  (s s1 : State W) (d : pyfloat) :
  geo_distance cfg = true ->
  get_difference_between_orientations cfg a b s = Returned (d, s1) ->
  d = NaN.
Proof.
  intros Hgeo H.
  destruct (pf_gtb (vdot a a) (Fin 0)) eqn:G.
  - destruct (geodesic_guard_true cfg s a b Hgeo G) as [e He].
    rewrite He in H. discriminate.
  - rewrite (geodesic_guard_false cfg s a b Hgeo G) in H.
    injection H as <- _. reflexivity.
Qed.

(** What a call of [_compute_reward] that returned has done. *)
Lemma _compute_reward_returned (cfg : Config) (st st' : State W)
  (numeric : list pyfloat) (cam : Cam) (done reward : pyfloat) :
  length numeric = 13%nat ->
  _compute_reward cfg (numeric, cam) done st = Returned (reward, st') ->
  exists dist diff st1,
    get_distance_from_desired_point cfg (obs_position numeric)
      = Returned dist /\
    get_difference_from_desired_orientation cfg (obs_orientation numeric) st
      = Returned (diff, st1) /\
    reward =
      selected_reward cfg numeric done (collision_check (world st))
        (pf_add (pf_sub dist (previous_distance_from_des_point st))
           (pf_mul (Fin 2)
              (pf_sub diff (previous_difference_from_des_orientation st))))
    /\ world st' = world st
    /\ cumulated_reward st' = pf_add (cumulated_reward st) reward
    /\ cumulated_steps st' = (cumulated_steps st + 1)%Z
    /\ previous_distance_from_des_point st' = dist
    /\ previous_difference_from_des_orientation st' = diff.
Proof.
  intros Hlen Hret.
  destruct (get_difference_from_desired_orientation cfg
              (obs_orientation numeric) st) as [[diff st1]|e] eqn:Hdiff.
  - destruct (_compute_reward_run cfg st st1 numeric cam done _ diff Hlen
                (get_distance_from_desired_point_value cfg _) Hdiff)
      as (st'' & Hr & Hw & Hc & Hs & Hpd & Hpo).
    cbv zeta in Hr, Hc. rewrite Hr in Hret. injection Hret as <- <-.
    do 3 eexists. split; [apply get_distance_from_desired_point_value|].
    split; [reflexivity|]. repeat split; assumption.
  - rewrite (_compute_reward_raises cfg st numeric cam done e Hlen Hdiff)
      in Hret. discriminate.
Qed.

(** X7.  A call of [_compute_reward] on an observation of thirteen
    numbers that returns has left the world as it was, added the reward to
    [cumulated_reward], added 1 to [cumulated_steps], and stored the
    position distance and the orientation distance of this observation as
    the previous ones. *)
Theorem _compute_reward_bookkeeping (cfg : Config) (st st' : State W)
  (numeric : list pyfloat) (cam : Cam) (done reward : pyfloat) :
  length numeric = 13%nat ->
  _compute_reward cfg (numeric, cam) done st = Returned (reward, st') ->
  world st' = world st /\
  cumulated_reward st' = pf_add (cumulated_reward st) reward /\
  cumulated_steps st' = (cumulated_steps st + 1)%Z /\
  get_distance_from_desired_point cfg (obs_position numeric)
    = Returned (previous_distance_from_des_point st') /\
  exists st1,
    get_difference_from_desired_orientation cfg (obs_orientation numeric) st
    = Returned (previous_difference_from_des_orientation st', st1).
Proof.
  intros Hlen Hret.
  destruct (_compute_reward_returned cfg st st' numeric cam done reward
              Hlen Hret)
    as (dist & diff & st1 & Hd & Hf & _ & Hw & Hc & Hs & Hpd & Hpo).
  subst dist diff. repeat split; try assumption. exists st1. exact Hf.
Qed.

(** X8.  A reward that [_compute_reward] returns is one of the configured
    values: [closer_to_point_reward] or 0 while the episode is not done;
    [collision_penalty], [end_episode_points] or the negative of
    [end_episode_points] when it is done. *)
Theorem reward_is_a_configured_value (cfg : Config) (st st' : State W)
  (numeric : list pyfloat) (cam : Cam) (done reward : pyfloat) :
  length numeric = 13%nat ->
  _compute_reward cfg (numeric, cam) done st = Returned (reward, st') ->
  (truthy done = false ->
   reward = closer_to_point_reward cfg \/ reward = Fin 0) /\
  (truthy done = true ->
   reward = collision_penalty cfg \/
   reward = end_episode_points cfg \/
   reward = pf_opp (end_episode_points cfg)).
Proof.
  intros Hlen Hret.
  destruct (_compute_reward_returned cfg st st' numeric cam done reward
              Hlen Hret)
    as (dist & diff & st1 & _ & _ & Hr & _).
  unfold selected_reward in Hr. split; intros Hdone; rewrite Hdone in Hr.
  - revert Hr. case_if; intros ->; [left | right]; reflexivity.
  - revert Hr. case_if; [intros ->; left; reflexivity|].
    destruct (is_in_desired_pose cfg _ _) as [[|]|]; intros ->;
      right; [left | right | right]; reflexivity.
Qed.

(** X9.  The reward for approaching is given for a change only.  When
    [_compute_reward] is called twice in a row on the same observation, the
    second call, with the episode not done, returns 0: the distances stored
    by the first call are the current ones. *)
Theorem no_reward_without_change (cfg : Config) (st st1 st2 : State W)
  (numeric : list pyfloat) (cam : Cam) (done1 done2 r1 r2 : pyfloat) :
  length numeric = 13%nat ->
  _compute_reward cfg (numeric, cam) done1 st = Returned (r1, st1) ->
  truthy done2 = false ->
  _compute_reward cfg (numeric, cam) done2 st1 = Returned (r2, st2) ->
  r2 = Fin 0.
Proof.
  intros Hlen H1 Hdone H2.
  destruct (_compute_reward_returned cfg st st1 numeric cam done1 r1 Hlen H1)
    as (dist & diff & sa & Hd & Hf & _ & _ & _ & _ & Hpd & Hpo).
  destruct (_compute_reward_returned cfg st1 st2 numeric cam done2 r2 Hlen H2)
    as (dist' & diff' & sb & Hd' & Hf' & Hr & _).
  rewrite Hd in Hd'. injection Hd' as <-.
  assert (diff = diff') as <-.
  { unfold get_difference_from_desired_orientation in Hf, Hf'.
    eapply get_difference_value_independent; eassumption. }
  rewrite Hpd, Hpo in Hr. unfold selected_reward in Hr.
  rewrite Hdone, no_change_is_not_a_decrease in Hr. exact Hr.
Qed.

(** X10.  In geodesic mode the orientation distance never returns a
    number: on arrays of any length and content, a value that is returned
    is NaN. *)
Theorem geodesic_returns_only_nan (cfg : Config) (a b : list pyfloat)
  (s s1 : State W) (d : pyfloat) :
  geo_distance cfg = true ->
  get_difference_between_orientations cfg a b s = Returned (d, s1) ->
  d = NaN.
Proof. apply geodesic_value_is_nan. Qed.

(** X11.  In geodesic mode approaching the goal is never rewarded: while
    the episode is not done, a reward that [_compute_reward] returns is 0,
    whatever the previous distances were. *)
Theorem geodesic_mode_never_rewards_approach (cfg : Config)
  (st st' : State W) (numeric : list pyfloat) (cam : Cam)
  (done reward : pyfloat) :
  geo_distance cfg = true ->
  length numeric = 13%nat ->
  truthy done = false ->
  _compute_reward cfg (numeric, cam) done st = Returned (reward, st') ->
  reward = Fin 0.
Proof.
  intros Hgeo Hlen Hdone Hret.
  destruct (_compute_reward_returned cfg st st' numeric cam done reward
              Hlen Hret)
    as (dist & diff & st1 & _ & Hf & Hr & _).
  unfold get_difference_from_desired_orientation in Hf.
  apply (geodesic_value_is_nan cfg _ _ _ _ _ Hgeo) in Hf. subst diff.
  unfold selected_reward in Hr.
  rewrite Hdone, nan_change_is_not_a_decrease in Hr. exact Hr.
Qed.
End RewardShaping.

(** ** Actions, observations and the two accumulators *)

Section StepsAndObservations.
Context {W Cam : Type} {backend : Backend W Cam}.

Ltac invert_returned H :=
  unfold command, request, sensor, loginfo, logdebug, logerr, logwarn,
    rospy_logmsg, when, gets, modify, ret, liftR, _set_init_pose in H;
  repeat match type of H with
    | context [match ?p with (_, _) => _ end] => destruct p
    | context [if ?b then _ else _] => destruct b
    end;
  injection H as ? ?; subst.

Ltac invert_lifts :=
  repeat match goal with
         | H' : liftR ?r _ = Returned _ |- _ =>
             unfold liftR in H'; destruct r eqn:?; [|discriminate H'];
             injection H' as ? ?; subst
         end.

Lemma command_frame (f : W -> W) (s s' : State W) (u : unit) :
  command f s = Returned (u, s') ->
  world s' = f (world s) /\
  cumulated_reward s' = cumulated_reward s /\
  cumulated_steps s' = cumulated_steps s.
Proof. intros H. invert_returned H. repeat split. Qed.

Lemma same_episode_state_refl (s : State W) : same_episode_state s s.
Proof. repeat split. Qed.

Lemma same_episode_state_trans (s1 s2 s3 : State W) :
  same_episode_state s1 s2 -> same_episode_state s2 s3 ->
  same_episode_state s1 s3.
Proof.
  unfold same_episode_state.
  intros (A1 & A2 & A3 & A4 & A5) (B1 & B2 & B3 & B4 & B5).
  repeat split; congruence.
Qed.

Lemma _get_obs_value (s : State W) :
  _get_obs s =
  Returned
    (observe (world s),
     set_rospy_log
       (rospy_log s ++
          [{| log_level := LogDebug; log_text := "Start Get Observation ==>";
              log_values := [] |}]) s).
Proof. reflexivity. Qed.

Lemma drone_has_flipped_frame (o : list pyfloat) (s s' : State W) (b : bool) :
  drone_has_flipped o s = Returned (b, s') -> same_episode_state s s'.
Proof.
  unfold drone_has_flipped. intros H.
  do 4 (apply bind_Returned in H; destruct H as (? & ? & ? & H)).
  destruct (euler_from_quaternion _) as [[r p] yw].
  do 6 (apply bind_Returned in H; destruct H as (? & ? & ? & H)).
  invert_lifts.
  repeat match goal with
         | H' : _ = Returned _ |- _ => invert_returned H'
         end; repeat split.
Qed.

Lemma _is_done_frame (cfg : Config) (obs : Observation) (s s' : State W)
  (d : pyfloat) :
  _is_done cfg obs s = Returned (d, s') -> same_episode_state s s'.
Proof.
  unfold _is_done. intros H.
  repeat (apply bind_Returned in H; destruct H as (? & ? & ? & H)).
  match goal with
  | Hf : drone_has_flipped _ _ = Returned _ |- _ =>
      apply drone_has_flipped_frame in Hf; rename Hf into Hfl
  end.
  invert_lifts.
  invert_returned H.
  repeat match goal with
         | H' : _ = Returned _ |- _ => invert_returned H'
         end; exact Hfl.
Qed.

Lemma _set_action_value (action : list pyfloat) (st : State W) :
  ((length action < 4)%nat -> _set_action action st = Raised IndexError) /\
  (forall a0 a1 a2 a3 rest,
     action = a0 :: a1 :: a2 :: a3 :: rest ->
     exists st',
       _set_action action st = Returned (tt, st') /\
       world st' = pub_cmd_vel (action_twist a0 a1 a2 a3) (world st) /\
       cumulated_reward st' = cumulated_reward st /\
       cumulated_steps st' = cumulated_steps st /\
       rospy_log st' =
         rospy_log st ++
           [{| log_level := LogDebug; log_text := "END Set Action ==>";
               log_values := action |}]).
Proof.
  split.
  - intros H. unfold _set_action, bind, liftR.
    do 4 (destruct action as [|? action]; [reflexivity|]).
    simpl in H. lia.
  - intros a0 a1 a2 a3 rest ->.
    unfold _set_action, bind, liftR, command, logdebug, rospy_logmsg, modify.
    cbn [getitem nth_error]. eexists. split; [reflexivity|].
    repeat split.
Qed.

(** What one call of [step] of the task environment that returned has
    done. *)
Lemma uav_step_returned (cfg : Config) (action : list pyfloat)
  (e e' : RobotSimEnv.Env (State W))
  (out : Observation * pyfloat * pyfloat * RobotSimEnv.Info) :
  RobotSimEnv.step (uav_methods cfg) action e = Returned (out, e') ->
  exists a0 a1 a2 a3 rest,
    action = a0 :: a1 :: a2 :: a3 :: rest /\
    let w := sim_pause
               (pub_cmd_vel (action_twist a0 a1 a2 a3)
                  (sim_unpause (world (RobotSimEnv.self e)))) in
    world (RobotSimEnv.self e') = w /\
    fst (fst (fst out)) = observe w /\
    cumulated_reward (RobotSimEnv.self e')
      = pf_add (cumulated_reward (RobotSimEnv.self e))
          (RobotSimEnv.reward_of out) /\
    cumulated_steps (RobotSimEnv.self e')
      = (cumulated_steps (RobotSimEnv.self e) + 1)%Z.
Proof.
  unfold RobotSimEnv.step. intros H.
  apply bind_Returned in H. destruct H as (? & e1 & H1 & H).
  apply bind_Returned in H. destruct H as (? & e2 & H2 & H).
  apply bind_Returned in H. destruct H as (? & e3 & H3 & H).
  apply bind_Returned in H. destruct H as (obs & e4 & H4 & H).
  apply bind_Returned in H. destruct H as (done & e5 & H5 & H).
  apply bind_Returned in H. destruct H as (reward & e6 & H6 & H).
  unfold bind, modify, ret in H. injection H as <- <-.
  apply call_Returned in H1, H2, H3, H4, H5, H6.
  cbn [uav_methods RobotSimEnv.sim_handler_unpause
       RobotSimEnv.sim_handler_pause RobotSimEnv._set_action
       RobotSimEnv._get_obs RobotSimEnv._is_done
       RobotSimEnv._compute_reward] in *.
  cbn [RobotSimEnv.self RobotSimEnv.reward_of fst snd].
  assert (Hact : exists a0 a1 a2 a3 rest,
            action = a0 :: a1 :: a2 :: a3 :: rest).
  { destruct (Nat.lt_ge_cases (length action) 4) as [L|L].
    - rewrite (proj1 (_set_action_value action _) L) in H2. discriminate.
    - do 4 (destruct action as [|? action]; [simpl in L; lia|]).
      do 5 eexists. reflexivity. }
  destruct Hact as (a0 & a1 & a2 & a3 & rest & ->).
  exists a0, a1, a2, a3, rest. split; [reflexivity|]. cbv zeta.
  destruct (proj2 (_set_action_value (a0 :: a1 :: a2 :: a3 :: rest)
                     (RobotSimEnv.self e1))
              a0 a1 a2 a3 rest eq_refl) as (s2 & E2 & W2 & R2 & S2 & _).
  rewrite E2 in H2. injection H2 as H2. subst s2.
  apply command_frame in H1. destruct H1 as (W1 & R1 & S1).
  apply command_frame in H3. destruct H3 as (W3 & R3 & S3).
  rewrite _get_obs_value in H4. injection H4 as Hobs H4.
  apply _is_done_frame in H5. destruct H5 as (W5 & R5 & S5 & _).
  assert (Hlen : length (fst obs) = 13%nat) by (subst obs; reflexivity).
  destruct obs as [numeric cam]. cbn [fst] in Hlen.
  destruct (_compute_reward_returned cfg _ _ numeric cam done reward Hlen H6)
    as (_ & _ & _ & _ & _ & _ & W6 & R6 & S6 & _).
  assert (W4 : world (RobotSimEnv.self e4) = world (RobotSimEnv.self e3))
    by (rewrite <- H4; reflexivity).
  assert (R4 : cumulated_reward (RobotSimEnv.self e4)
               = cumulated_reward (RobotSimEnv.self e3))
    by (rewrite <- H4; reflexivity).
  assert (S4 : cumulated_steps (RobotSimEnv.self e4)
               = cumulated_steps (RobotSimEnv.self e3))
    by (rewrite <- H4; reflexivity).
  split; [congruence|].
  split; [rewrite <- Hobs; f_equal; congruence|].
  split; [rewrite R6; f_equal; congruence|].
  rewrite S6. f_equal. congruence.
Qed.

(** X13.  A call of [step] of the task environment that returns was given
    an action with at least four entries.  The world it leaves is the one
    reached by unpausing, publishing the command and pausing, and the
    observation it returns is the observation of that world. *)
Theorem step_observes_the_paused_world (cfg : Config) (action : list pyfloat)
  (e e' : RobotSimEnv.Env (State W))
  (out : Observation * pyfloat * pyfloat * RobotSimEnv.Info) :
  RobotSimEnv.step (uav_methods cfg) action e = Returned (out, e') ->
  exists a0 a1 a2 a3 rest,
    action = a0 :: a1 :: a2 :: a3 :: rest /\
    let w := sim_pause
               (pub_cmd_vel (action_twist a0 a1 a2 a3)
                  (sim_unpause (world (RobotSimEnv.self e)))) in
    world (RobotSimEnv.self e') = w /\
    fst (fst (fst out)) = observe w.
Proof.
  intros H.
  destruct (uav_step_returned cfg action e e' out H)
    as (a0 & a1 & a2 & a3 & rest & Ha & Hw & Ho & _).
  exists a0, a1, a2, a3, rest. repeat split; assumption.
Qed.

Lemma uav_steps_returned (cfg : Config) (actions : list (list pyfloat))
  (e e' : RobotSimEnv.Env (State W))
  (outs : list (Observation * pyfloat * pyfloat * RobotSimEnv.Info)) :
  RobotSimEnv.steps (uav_methods cfg) actions e = Returned (outs, e') ->
  cumulated_reward (RobotSimEnv.self e')
    = fold_left pf_add (map RobotSimEnv.reward_of outs)
        (cumulated_reward (RobotSimEnv.self e)) /\
  cumulated_steps (RobotSimEnv.self e')
    = (cumulated_steps (RobotSimEnv.self e) + Z.of_nat (length actions))%Z.
Proof.
  revert e e' outs. induction actions as [|a rest IH]; intros e e' outs H.
  - cbn in H. injection H as <- <-. cbn. split; [reflexivity | lia].
  - cbn [RobotSimEnv.steps] in H.
    apply bind_Returned in H. destruct H as (out & e1 & H1 & H).
    apply bind_Returned in H. destruct H as (outs' & e2 & H2 & H).
    unfold ret in H. injection H as <- <-.
    destruct (uav_step_returned cfg a e e1 out H1)
      as (_ & _ & _ & _ & _ & _ & _ & _ & R1 & S1).
    apply IH in H2. destruct H2 as (R2 & S2).
    cbn [map fold_left length]. rewrite R2, S2, R1, S1.
    split; [reflexivity | lia].
Qed.

(** X14.  The task environment sums the rewards in [cumulated_reward],
    the base class in [cumulated_episode_reward].  After a reset and any
    number of steps that return, the two sums are equal, and
    [cumulated_steps] has grown by the number of steps. *)
Theorem accumulators_agree (cfg : Config)
  (e e0 eN : RobotSimEnv.Env (State W)) (obs0 : Observation)
  (actions : list (list pyfloat))
  (outs : list (Observation * pyfloat * pyfloat * RobotSimEnv.Info)) :
  RobotSimEnv.reset (uav_methods cfg) e = Returned (obs0, e0) ->
  RobotSimEnv.steps (uav_methods cfg) actions e0 = Returned (outs, eN) ->
  cumulated_reward (RobotSimEnv.self eN)
    = RobotSimEnv.cumulated_episode_reward eN /\
  cumulated_steps (RobotSimEnv.self eN)
    = (cumulated_steps (RobotSimEnv.self e) + Z.of_nat (length actions))%Z.
Proof.
  intros H0 HN.
  destruct (uav_reset_counters cfg e e0 obs0 H0) as (R0 & S0).
  destruct (reset_publishes _ _ _ _ H0) as (_ & B0 & _).
  destruct (uav_steps_returned cfg actions e0 eN outs HN) as (RN & SN).
  destruct (steps_accumulate _ _ _ _ _ HN) as (_ & _ & BN & _).
  rewrite RN, BN, R0, B0, SN, S0. split; reflexivity.
Qed.
End StepsAndObservations.

(** ** The baseline that reset stores *)

Lemma call_bind_raised {Sub A B : Type} (c : M Sub A)
  (k : A -> M (RobotSimEnv.Env Sub) B) (e : RobotSimEnv.Env Sub) (x : exn) :
  c (RobotSimEnv.self e) = Raised x ->
  bind (RobotSimEnv.call c) k e = Raised x.
Proof. intros H. unfold bind, RobotSimEnv.call. rewrite H. reflexivity. Qed.

Section ResetBaseline.
Context {W Cam : Type} {backend : Backend W Cam}.

Ltac invert_returned H :=
  unfold command, request, sensor, loginfo, logdebug, logerr, logwarn,
    rospy_logmsg, when, gets, modify, ret, liftR, _set_init_pose in H;
  repeat match type of H with
    | context [match ?p with (_, _) => _ end] => destruct p
    | context [if ?b then _ else _] => destruct b
    end;
  injection H as ? ?; subst.



End ResetBaseline.

(** ** Settings with which no episode runs *)

Section DegenerateSettings.
Context {W Cam : Type} {backend : Backend W Cam}.




(** X19.  When the parameter server gives a roll limit that is 0 or
    negative, no roll is inside (-max_roll, max_roll]: [_is_done] returns
    a true value on every observation of thirteen numbers. *)
Theorem nonpositive_roll_limit_ends_every_episode (cfg : Config)
  (st : State W) (numeric : list pyfloat) (cam : Cam) (r : R) :
  length numeric = 13%nat ->
  rospy_get_param "/mavros_gym/max_roll" (world st) = Fin r ->
  r <= 0 ->
  exists done st',
    _is_done cfg (numeric, cam) st = Returned (done, st') /\
    truthy done = true.
Proof.
  intros H Hp Hr.
  destruct (_is_done_run cfg st numeric cam H)
    as (inside & flipped & reached & st1 & _ & Hfl & _ & _ & Hrun).
  cbv zeta in Hrun. do 2 eexists. split; [exact Hrun|].
  rewrite !truthy_py_or, !truthy_of_bool.
  assert (flipped = true) as ->.
  { list_of_length numeric H. cbn [slice firstn skipn] in Hfl.
    pose proof (drone_has_flipped_value x2 x3 x4 x5 st) as V.
    destruct (euler_from_quaternion [x3; x4; x5; x2]) as [[roll pitch] yaw].
    cbv zeta in V. destruct V as (f & V & Hiff).
    rewrite V in Hfl. injection Hfl as -> _.
    destruct flipped; [reflexivity|].
    destruct (proj1 Hiff eq_refl) as [[L1 L2] _].
    rewrite Hp in L1, L2. unfold pf_lt, pf_le in L1, L2.
    destruct roll; simpl in L1, L2; try discriminate.
    apply Rltb_true in L1. apply Rleb_true in L2. lra. }
  rewrite !orb_true_r. reflexivity.
Qed.
End DegenerateSettings.

(** ** Episode numbers, and the registration *)

Section CallSequences.
Import RobotSimEnv.
Context {Sub Action Obs : Type}.
Variable methods : Methods Sub Action Obs.

Lemma episodes_numbered_init (s : Sub) : episodes_numbered (init s).
Proof. split; reflexivity. Qed.

Lemma episodes_numbered_same (e e' : Env Sub) :
  episode_num e' = episode_num e -> reward_pub e' = reward_pub e ->
  episodes_numbered e -> episodes_numbered e'.
Proof. unfold episodes_numbered. intros -> ->. tauto. Qed.

Lemma episodes_numbered_reset (e e' : Env Sub) (obs : Obs) :
  reset methods e = Returned (obs, e') ->
  episodes_numbered e ->
  episodes_numbered e' /\
  length (reward_pub e') = S (length (reward_pub e)).
Proof.
  intros H [N P]. apply reset_publishes in H. destruct H as (N' & _ & P').
  unfold episodes_numbered. rewrite N', P', N.
  rewrite length_app, Nat.add_1_r. cbn [length].
  split; [|reflexivity]. split; [lia|].
  rewrite map_app, seq_S, map_app, P. cbn. reflexivity.
Qed.

Lemma calls_keep_numbering (cs : list (Call Action)) (e e' : Env Sub) :
  calls methods cs e = Returned (tt, e') ->
  episodes_numbered e ->
  episodes_numbered e' /\
  length (reward_pub e')
  = (length (reward_pub e) + length (filter is_reset cs))%nat.
Proof.
  revert e. induction cs as [|c cs IH]; intros e H I.
  - cbn in H. injection H as <-. split; [exact I | cbn; lia].
  - destruct c as [|a]; cbn [calls] in H;
      apply bind_Returned in H; destruct H as (? & e1 & H1 & H).
    + destruct (episodes_numbered_reset e e1 _ H1 I) as [I1 L1].
      destruct (IH e1 H I1) as [I' L'].
      split; [exact I'|]. cbn [filter is_reset length]. lia.
    + destruct (step_accumulates methods a e e1 _ H1) as (N1 & _ & P1).
      pose proof (episodes_numbered_same e e1 N1 P1 I) as I1.
      destruct (IH e1 H I1) as [I' L'].
      split; [exact I'|]. cbn [filter is_reset]. rewrite L', P1. reflexivity.
Qed.

(** X17.  For every subclass of [RobotSimEnv] and every sequence of
    [reset] and [step] calls on a new environment that all return: one
    message was published per reset, the episode numbers published are
    0, 1, 2, ... in this order, and [episode_num] is the number of
    resets. *)
Theorem episodes_are_numbered_from_zero (s : Sub) (cs : list (Call Action))
  (e : Env Sub) :
  calls methods cs (init s) = Returned (tt, e) ->
  length (reward_pub e) = length (filter is_reset cs) /\
  episode_num e = Z.of_nat (length (filter is_reset cs)) /\
  map episode_number (reward_pub e)
  = map Z.of_nat (seq 0 (length (filter is_reset cs))).
Proof.
  intros H.
  destruct (calls_keep_numbering cs (init s) e H (episodes_numbered_init s))
    as [[N P] L].
  cbn in L. rewrite <- L. repeat split; assumption.
Qed.
End CallSequences.

Section RegGymEnvFacts.
Import RegGymEnv.
Context {G E : Type}.
Variable gym : Gym G E.

(** X18.  When [register_gym_env] returns, the result is True exactly for
    the one known name.  With False the registry is as it was: nothing was
    registered or imported.  With True the name is among the ids of the
    registry. *)
Theorem register_gym_env_result (task_env : string) (steps : Z) (g g' : G)
  (b : bool) :
  register_gym_env gym task_env steps g = Done (b, g') ->
  (b = true <-> task_env = known_task_env) /\
  (b = false -> g' = g) /\
  (b = true -> In task_env (registry_ids gym g')).
Proof.
  unfold register_gym_env.
  destruct (String.eqb task_env known_task_env) eqn:K.
  - apply String.eqb_eq in K.
    destruct (register gym _ g) as [g1| |]; try discriminate.
    destruct (import_task_env gym g1) as [g2| |]; try discriminate.
    cbn. destruct (existsb _ _) eqn:X; [|discriminate].
    intros H. injection H as <- <-.
    split; [tauto|]. split; [discriminate|]. intros _.
    apply existsb_exists in X. destruct X as (x & Hin & Hx).
    apply String.eqb_eq in Hx. subst x. exact Hin.
  - apply String.eqb_neq in K. cbn.
    intros H. injection H as <- <-.
    split; [split; [discriminate | tauto]|]. split; [reflexivity|].
    discriminate.
Qed.
End RegGymEnvFacts.

(** ** Commands, and the properties above at concrete inputs *)

Section Commands.
Context {W Cam : Type} {backend : Backend W Cam}.

(** X12.  [_set_action] reads the first four entries of the action.
    With fewer than four it raises IndexError, and so does [step] of the
    task environment.  With four or more it publishes the velocity command
    with linear part (a0, a1, a2) and angular part (0, 0, a3), leaves the
    two counters as they were and logs the action. *)
Theorem _set_action_publishes (cfg : Config) (action : list pyfloat)
  (st : State W) (e : RobotSimEnv.Env (State W)) :
  ((length action < 4)%nat ->
   _set_action action st = Raised IndexError /\
   RobotSimEnv.step (uav_methods cfg) action e = Raised IndexError) /\
  (forall a0 a1 a2 a3 rest,
     action = a0 :: a1 :: a2 :: a3 :: rest ->
     exists st',
       _set_action action st = Returned (tt, st') /\
       world st' = pub_cmd_vel (action_twist a0 a1 a2 a3) (world st) /\
       cumulated_reward st' = cumulated_reward st /\
       cumulated_steps st' = cumulated_steps st /\
       rospy_log st' =
         rospy_log st ++
           [{| log_level := LogDebug; log_text := "END Set Action ==>";
               log_values := action |}]).
Proof.
  split; [|exact (proj2 (_set_action_value action st))].
  intros H. split; [exact (proj1 (_set_action_value action st) H)|].
  unfold RobotSimEnv.step.
  cbn [uav_methods RobotSimEnv.sim_handler_unpause RobotSimEnv._set_action].
  erewrite call_bind by reflexivity.
  apply call_bind_raised.
  exact (proj1 (_set_action_value action _) H).
Qed.
End Commands.

Section FurtherExamples.
#[local] Existing Instance hover_backend.

Lemma at_goal_in_box (eps : R) :
  0 < eps ->
  is_in_desired_pose example_cfg (slice 0 7 at_goal_numeric) (Fin eps)
  = Returned true.
Proof.
  intros H.
  apply (proj2 (is_in_desired_pose_iff example_cfg
                  (slice 0 7 at_goal_numeric) (Fin eps) eq_refl)).
  unfold in_band.
  cbn [slice at_goal_numeric example_obs skipn firstn desired_pose_array
       desired_position desired_orientation example_cfg desired_pose
       make_pose PoseStamped.pose Pose.position Pose.orientation
       Point.x Point.y Point.z Quaternion.w Quaternion.x Quaternion.y
       Quaternion.z pf_sub pf_add pf_opp Nat.sub].
  repeat constructor;
    first [apply pf_lt_Fin | apply pf_le_Fin]; lra.
Qed.


Lemma hover_not_collided :
  truthy (collision_check (world (example_state (at_goal_world (Fin 0)) 0 0)))
  = false.
Proof. unfold truthy; cbn. Rdecide; try reflexivity. Qed.

Lemma goal_reached_is_rewarded_witness :
  exists st',
    _compute_reward example_cfg (at_goal_numeric, tt) (of_bool true)
      (example_state (at_goal_world (Fin 0)) 0 0)
    = Returned (end_episode_points example_cfg, st').
Proof.
  destruct (_compute_reward_run example_cfg _ _ at_goal_numeric tt
              (of_bool true) (Fin 0) (Fin 0) eq_refl at_goal_distance
              (at_goal_difference (example_state (at_goal_world (Fin 0)) 0 0)))
    as (st' & Hr & _).
  cbv zeta in Hr. exists st'.
  assert (Heps : 0.05 <= 0.5) by lra.
  assert (Hpos : 0 < 0.05) by lra.
  pose proof (goal_reached_is_rewarded example_cfg _ st' at_goal_numeric tt
                (of_bool true) _ 0 0 (-2) 1 0 0 0 0.05 eq_refl eq_refl
                eq_refl Heps (at_goal_in_box 0.05 Hpos)
                (truthy_of_bool true) hover_not_collided Hr) as E.
  rewrite E in Hr. exact Hr.
Defined.



Lemma _is_done_needs_seven_numbers_witness :
  _is_done example_cfg ([Fin 0; Fin 0; Fin (-2)], tt)
    (example_state (at_goal_world (Fin 0)) 0 0) = Raised IndexError /\
  exists done st',
    _is_done example_cfg (at_goal_numeric, tt)
      (example_state (at_goal_world (Fin 0)) 0 0) = Returned (done, st').
Proof.
  split.
  - apply (proj2 (_is_done_needs_seven_numbers example_cfg
                    (example_state (at_goal_world (Fin 0)) 0 0)
                    [Fin 0; Fin 0; Fin (-2)] tt)).
    cbn. lia.
  - apply (proj1 (_is_done_needs_seven_numbers example_cfg
                    (example_state (at_goal_world (Fin 0)) 0 0)
                    at_goal_numeric tt)).
    cbn. lia.
Defined.

Lemma _set_action_publishes_witness :
  RobotSimEnv.step (uav_methods example_cfg) [Fin 1; Fin 0; Fin 0]
    (RobotSimEnv.init (example_state (at_goal_world (Fin 0)) 0 0))
  = Raised IndexError.
Proof.
  apply (proj1 (_set_action_publishes example_cfg [Fin 1; Fin 0; Fin 0]
                  (example_state (at_goal_world (Fin 0)) 0 0)
                  (RobotSimEnv.init
                     (example_state (at_goal_world (Fin 0)) 0 0)))).
  cbn. lia.
Defined.

(** One call of [_compute_reward] at the goal, episode not done. *)
Lemma at_goal_reward_returns (st : State hover_world) (done : pyfloat) :
  exists reward st',
    _compute_reward example_cfg (at_goal_numeric, tt) done st
    = Returned (reward, st').
Proof.
  destruct (_compute_reward_run example_cfg st _ at_goal_numeric tt
              done (Fin 0) (Fin 0) eq_refl at_goal_distance
              (at_goal_difference st))
    as (st' & Hr & _).
  cbv zeta in Hr. eexists. exists st'. exact Hr.
Qed.

Lemma _compute_reward_bookkeeping_witness :
  exists reward st',
    _compute_reward example_cfg (at_goal_numeric, tt) (of_bool false)
      (example_state (at_goal_world (Fin 0)) 1 0)
    = Returned (reward, st') /\
    cumulated_steps st' = 1%Z /\
    cumulated_reward st' = pf_add (Fin 0) reward.
Proof.
  destruct (at_goal_reward_returns
              (example_state (at_goal_world (Fin 0)) 1 0) (of_bool false))
    as (reward & st' & Hr).
  exists reward, st'. split; [exact Hr|].
  destruct (_compute_reward_bookkeeping example_cfg _ st' at_goal_numeric tt
              (of_bool false) reward eq_refl Hr) as (_ & Hc & Hs & _).
  split; [exact Hs | exact Hc].
Defined.

Lemma reward_is_a_configured_value_witness :
  exists reward st',
    _compute_reward example_cfg (at_goal_numeric, tt) (of_bool false)
      (example_state (at_goal_world (Fin 0)) 1 0)
    = Returned (reward, st') /\
    (reward = closer_to_point_reward example_cfg \/ reward = Fin 0).
Proof.
  destruct (at_goal_reward_returns
              (example_state (at_goal_world (Fin 0)) 1 0) (of_bool false))
    as (reward & st' & Hr).
  exists reward, st'. split; [exact Hr|].
  exact (proj1 (reward_is_a_configured_value example_cfg _ st'
                  at_goal_numeric tt (of_bool false) reward eq_refl Hr)
           (truthy_of_bool false)).
Defined.

Lemma no_reward_without_change_witness :
  exists r1 st1 st2,
    _compute_reward example_cfg (at_goal_numeric, tt) (of_bool false)
      (example_state (at_goal_world (Fin 0)) 1 0)
    = Returned (r1, st1) /\
    _compute_reward example_cfg (at_goal_numeric, tt) (of_bool false) st1
    = Returned (Fin 0, st2).
Proof.
  destruct (at_goal_reward_returns
              (example_state (at_goal_world (Fin 0)) 1 0) (of_bool false))
    as (r1 & st1 & H1).
  destruct (at_goal_reward_returns st1 (of_bool false)) as (r2 & st2 & H2).
  exists r1, st1, st2. split; [exact H1|].
  pose proof (no_reward_without_change example_cfg _ st1 st2 at_goal_numeric
                tt (of_bool false) (of_bool false) r1 r2 eq_refl H1
                (truthy_of_bool false) H2) as E.
  rewrite E in H2. exact H2.
Defined.

Lemma zero_norm_difference (b : list pyfloat) (st : State hover_world) :
  get_difference_between_orientations (set_geo_distance true example_cfg)
    zero_quaternion b st
  = Returned (NaN, set_rospy_log (rospy_log st ++ [error_0_norm]) st).
Proof.
  rewrite geodesic_guard_false; [reflexivity | reflexivity |].
  unfold zero_quaternion. rewrite vdot_real_quaternion.
  unfold pf_gtb. cbn [pf_ltb]. apply Rltb_false. lra.
Qed.

Lemma geodesic_returns_only_nan_witness :
  exists d st',
    get_difference_between_orientations (set_geo_distance true example_cfg)
      zero_quaternion unit_quaternion
      (example_state (at_goal_world (Fin 0)) 0 0)
    = Returned (d, st') /\ d = NaN.
Proof.
  pose proof (zero_norm_difference unit_quaternion
                (example_state (at_goal_world (Fin 0)) 0 0)) as H.
  do 2 eexists. split; [exact H|].
  exact (geodesic_returns_only_nan (set_geo_distance true example_cfg)
           zero_quaternion unit_quaternion _ _ NaN eq_refl H).
Defined.

Lemma zero_norm_reward_returns (st : State hover_world) (done : pyfloat) :
  exists reward st',
    _compute_reward (set_geo_distance true example_cfg)
      (zero_norm_numeric, tt) done st
    = Returned (reward, st').
Proof.
  assert (Hd : get_distance_from_desired_point
                 (set_geo_distance true example_cfg)
                 (obs_position zero_norm_numeric) = Returned (Fin 0)).
  { exact at_goal_distance. }
  assert (Ho : get_difference_from_desired_orientation
                 (set_geo_distance true example_cfg)
                 (obs_orientation zero_norm_numeric) st
               = Returned (NaN,
                           set_rospy_log (rospy_log st ++ [error_0_norm]) st)).
  { unfold get_difference_from_desired_orientation.
    exact (zero_norm_difference _ st). }
  destruct (_compute_reward_run (set_geo_distance true example_cfg) st _
              zero_norm_numeric tt done (Fin 0) NaN eq_refl Hd Ho)
    as (st' & Hr & _).
  cbv zeta in Hr. eexists. exists st'. exact Hr.
Qed.

Lemma geodesic_mode_never_rewards_approach_witness :
  exists st',
    _compute_reward (set_geo_distance true example_cfg)
      (zero_norm_numeric, tt) (of_bool false)
      (example_state (at_goal_world (Fin 0)) 1 1)
    = Returned (Fin 0, st').
Proof.
  destruct (zero_norm_reward_returns
              (example_state (at_goal_world (Fin 0)) 1 1) (of_bool false))
    as (reward & st' & Hr).
  exists st'.
  pose proof (geodesic_mode_never_rewards_approach
                (set_geo_distance true example_cfg) _ st' zero_norm_numeric
                tt (of_bool false) reward eq_refl eq_refl
                (truthy_of_bool false) Hr) as E.
  rewrite E in Hr. exact Hr.
Defined.

Lemma step_observes_the_paused_world_witness :
  exists out e',
    RobotSimEnv.step (uav_methods example_cfg) [Fin 1; Fin 0; Fin 0; Fin 0]
      (RobotSimEnv.init (example_state (at_goal_world (Fin 0)) 0 0))
    = Returned (out, e') /\
    fst (fst (fst out)) = (at_goal_numeric, tt).
Proof.
  destruct (uav_step_returns example_cfg
              (RobotSimEnv.init (example_state (at_goal_world (Fin 0)) 0 0))
              (Fin 1) (Fin 0) (Fin 0) (Fin 0) eq_refl)
    as (out & e' & H & _).
  exists out, e'. split; [exact H|].
  destruct (step_observes_the_paused_world example_cfg _ _ e' out H)
    as (a0 & a1 & a2 & a3 & rest & Ha & _ & Hobs).
  rewrite Hobs. reflexivity.
Defined.

Lemma accumulators_agree_witness :
  let m := uav_methods example_cfg in
  let e := RobotSimEnv.init (example_state (at_goal_world (Fin 0)) 0 0) in
  exists obs0 e0 outs eN,
    RobotSimEnv.reset m e = Returned (obs0, e0) /\
    RobotSimEnv.steps m [[Fin 0; Fin 0; Fin 0; Fin 0]] e0
      = Returned (outs, eN) /\
    cumulated_reward (RobotSimEnv.self eN)
      = RobotSimEnv.cumulated_episode_reward eN /\
    cumulated_steps (RobotSimEnv.self eN) = 1%Z.
Proof.
  cbv zeta.
  destruct (uav_reset_returns example_cfg
              (RobotSimEnv.init (example_state (at_goal_world (Fin 0)) 0 0))
              eq_refl) as (obs0 & e0 & H0).
  destruct (uav_step_returns example_cfg e0 (Fin 0) (Fin 0) (Fin 0) (Fin 0)
              eq_refl) as (out & eN & HN & _).
  assert (Hsteps :
            RobotSimEnv.steps (uav_methods example_cfg)
              [[Fin 0; Fin 0; Fin 0; Fin 0]] e0 = Returned ([out], eN)).
  { cbn [RobotSimEnv.steps]. unfold bind at 1. rewrite HN. reflexivity. }
  exists obs0, e0, [out], eN.
  split; [exact H0|]. split; [exact Hsteps|].
  exact (accumulators_agree example_cfg _ e0 eN obs0 _ [out] H0 Hsteps).
Defined.


Lemma episodes_are_numbered_from_zero_witness :
  exists e,
    calls (uav_methods example_cfg)
      [CallReset; CallStep [Fin 0; Fin 0; Fin 0; Fin 0]; CallReset]
      (RobotSimEnv.init (example_state (at_goal_world (Fin 0)) 0 0))
    = Returned (tt, e) /\
    RobotSimEnv.episode_num e = 2%Z /\
    map RobotSimEnv.episode_number (RobotSimEnv.reward_pub e) = [0%Z; 1%Z].
Proof.
  destruct (uav_reset_returns example_cfg
              (RobotSimEnv.init (example_state (at_goal_world (Fin 0)) 0 0))
              eq_refl) as (obs0 & e0 & H0).
  destruct (uav_step_returns example_cfg e0 (Fin 0) (Fin 0) (Fin 0) (Fin 0)
              eq_refl) as (out & e1 & H1 & _).
  destruct (uav_reset_returns example_cfg e1 eq_refl) as (obs2 & e2 & H2).
  assert (H : calls (uav_methods example_cfg)
                [CallReset; CallStep [Fin 0; Fin 0; Fin 0; Fin 0]; CallReset]
                (RobotSimEnv.init
                   (example_state (at_goal_world (Fin 0)) 0 0))
              = Returned (tt, e2)).
  { cbn [calls]. unfold bind at 1. rewrite H0.
    unfold bind at 1. rewrite H1. unfold bind at 1. rewrite H2.
    reflexivity. }
  exists e2. split; [exact H|].
  exact (proj2 (episodes_are_numbered_from_zero (uav_methods example_cfg)
                  _ _ e2 H)).
Defined.

Lemma register_gym_env_result_witness :
  RegGymEnv.register_gym_env list_gym RegGymEnv.known_task_env
    RegGymEnv.default_max_episode_steps []
  = RegGymEnv.Done (true, [RegGymEnv.known_task_env]) /\
  In RegGymEnv.known_task_env
    (RegGymEnv.registry_ids list_gym [RegGymEnv.known_task_env]).
Proof.
  assert (H : RegGymEnv.register_gym_env list_gym RegGymEnv.known_task_env
                RegGymEnv.default_max_episode_steps []
              = RegGymEnv.Done (true, [RegGymEnv.known_task_env])).
  { reflexivity. }
  split; [exact H|].
  exact (proj2 (proj2 (register_gym_env_result list_gym _ _ _ _ _ H))
           eq_refl).
Defined.

End FurtherExamples.

Section LevelExamples.
#[local] Existing Instance level_backend.



Lemma nonpositive_roll_limit_ends_every_episode_witness :
  exists done st',
    _is_done example_cfg (at_goal_numeric, tt) (level_state (Fin 0))
    = Returned (done, st') /\
    truthy done = true.
Proof.
  apply (@nonpositive_roll_limit_ends_every_episode _ _ level_backend
           example_cfg
           (level_state (Fin 0)) at_goal_numeric tt 0 eq_refl eq_refl).
  lra.
Defined.

End LevelExamples.
